(** * Notes controller: a shallow embedding and its verified properties

    The development models the in-memory Notes controller (the module that
    exports [createNote], [getAllNotes], [getNoteById], [updateNote] and
    [deleteNote]) together with the two module-level variables it closes
    over, [notes] and [nextId].

    Modelling conventions.
    - A handler [(req, res) => ...] becomes a function from the request and
      the current store to the new store and the response that [res.json]
      sends; the response is a value (JSON text is a snapshot, not an alias).
    - [new Date()] reads the wall clock.  Each reading is an explicit
      argument of the handler, in the order the source evaluates them.  A
      timestamp is kept as the time value in milliseconds; [toISOString]
      renders it as a fixed-width text that determines it.
    - JavaScript numbers that count ([nextId], [note.id], the result of
      [parseInt]) are kept as mathematical integers.  This is exact while
      the values stay below 2^53; a [parseInt] result at or above 2^53 is
      rounded to a value that is again at or above 2^53, so comparing it with
      a stored id below 2^53 gives the same answer as the exact integer.
    - [req.body] is the object produced by the JSON body parser; the
      destructuring [const { title, content } = req.body] reads two
      properties, each [undefined] when absent.  With a body object in
      place no statement of a [try] block throws, so the [catch] branches
      (status 500) are not reachable and are not modelled. *)

From Stdlib Require Import ZArith NArith List Bool String Ascii Lia Sorted.
From Stdlib Require Import SpecFloat.
From stdpp Require Import base option list sorting.
Import ListNotations.

Local Open Scope Z_scope.

(** ** JavaScript values *)

(** A string is its sequence of UTF-16 code units. *)
Definition JSString := list N.

(** Code units of a text written in the Latin-1 range. *)
Definition js (s : string) : JSString :=
  map N_of_ascii (list_ascii_of_string s).

(** The values a parsed JSON body can hold, and [undefined] for an absent
    property.  Numbers are IEEE-754 doubles. *)
#[warnings="-register-all"]
Inductive JSValue : Type :=
| JUndefined
| JNull
| JBool (b : bool)
| JNum (x : spec_float)
| JStr (s : JSString)
| JArr (items : list JSValue)
| JObj (props : list (JSString * JSValue)).

(** [ToBoolean]: what [!v] negates. *)
Definition ToBoolean (v : JSValue) : bool :=
  match v with
  | JUndefined | JNull => false
  | JBool b => b
  | JNum (S754_zero _) | JNum S754_nan => false
  | JNum _ => true
  | JStr [] => false
  | JStr (_ :: _) => true
  | JArr _ | JObj _ => true
  end.

(** [v !== undefined] *)
Definition is_defined (v : JSValue) : bool :=
  match v with JUndefined => false | _ => true end.

(** ** [parseInt(string)] with no radix argument *)

Definition is_StrWhiteSpaceChar (c : N) : bool :=
  ((9 <=? c) && (c <=? 13) || (c =? 32) || (c =? 160) || (c =? 5760)
   || (8192 <=? c) && (c <=? 8202) || (c =? 8232) || (c =? 8233)
   || (c =? 8239) || (c =? 8287) || (c =? 12288) || (c =? 65279))%N.

Fixpoint trim_start (s : JSString) : JSString :=
  match s with
  | c :: s' => if is_StrWhiteSpaceChar c then trim_start s' else s
  | [] => []
  end.

(** Value of a code unit as a digit: 0-9, then a-z and A-Z for 10-35. *)
Definition digit_value (c : N) : option Z :=
  if ((48 <=? c) && (c <=? 57))%N then Some (Z.of_N c - 48)
  else if ((97 <=? c) && (c <=? 122))%N then Some (Z.of_N c - 87)
  else if ((65 <=? c) && (c <=? 90))%N then Some (Z.of_N c - 55)
  else None.

(** The longest prefix made of radix-[R] digits, as digit values. *)
Fixpoint radix_prefix (R : Z) (s : JSString) : list Z :=
  match s with
  | c :: s' =>
      match digit_value c with
      | Some d => if d <? R then d :: radix_prefix R s' else []
      | None => []
      end
  | [] => []
  end.

Definition radix_value (R : Z) (ds : list Z) : Z :=
  fold_left (fun acc d => acc * R + d) ds 0.

(** A leading [-] or [+] is removed; [-] makes the sign negative. *)
Definition strip_sign (s : JSString) : Z * JSString :=
  match s with
  | c :: r =>
      if (c =? 45)%N then (-1, r)
      else if (c =? 43)%N then (1, r)
      else (1, s)
  | [] => (1, s)
  end.

(** With no radix given, a leading [0x] or [0X] selects radix 16 and is
    removed; otherwise the radix is 10. *)
Definition strip_prefix (s : JSString) : Z * JSString :=
  match s with
  | c1 :: c2 :: r =>
      if ((c1 =? 48) && ((c2 =? 120) || (c2 =? 88)))%N then (16, r)
      else (10, s)
  | _ => (10, s)
  end.

(** [None] stands for [NaN]. *)
Definition parseInt (s : JSString) : option Z :=
  let '(sign, S1) := strip_sign (trim_start s) in
  let '(R, S2) := strip_prefix S1 in
  match radix_prefix R S2 with
  | [] => None
  | ds => Some (sign * radix_value R ds)
  end.

(** Decimal text of a non-negative integer, as a template literal
    [`${id}`] renders it. *)
Fixpoint decimal_digits (fuel : nat) (z : Z) (acc : JSString) : JSString :=
  match fuel with
  | O => acc
  | S fuel' =>
      let acc' := (Z.to_N (z mod 10) + 48)%N :: acc in
      if z <? 10 then acc' else decimal_digits fuel' (z / 10) acc'
  end.

Definition decimal (z : Z) : JSString :=
  decimal_digits (S (Z.to_nat (Z.log2 z))) z [].

(** ** The store and its records *)

Definition Timestamp := Z.

Record Note : Type := mkNote {
  id : Z;
  title : JSValue;
  content : JSValue;
  createdAt : Timestamp;
  updatedAt : Timestamp
}.

(** The two module-level variables. *)
Record Store : Type := mkStore {
  notes : list Note;
  nextId : Z
}.

(** [let notes = []; let nextId = 1;] *)
Definition initial : Store := {| notes := []; nextId := 1 |}.

Record Request : Type := mkRequest {
  params_id : JSString;
  body_title : JSValue;
  body_content : JSValue
}.

Inductive Payload : Type :=
| OneNote (n : Note)
| AllNotes (l : list Note).

(** The object handed to [res.status(status).json(...)]; a property that is
    absent or [undefined] is [None]. *)
Record Response : Type := mkResponse {
  status : Z;
  success : bool;
  message : option string;
  count : option Z;
  data : option Payload
}.

Definition set_title (v : JSValue) (n : Note) : Note :=
  {| id := id n; title := v; content := content n;
     createdAt := createdAt n; updatedAt := updatedAt n |}.

Definition set_content (v : JSValue) (n : Note) : Note :=
  {| id := id n; title := title n; content := v;
     createdAt := createdAt n; updatedAt := updatedAt n |}.

Definition set_updatedAt (t : Timestamp) (n : Note) : Note :=
  {| id := id n; title := title n; content := content n;
     createdAt := createdAt n; updatedAt := t |}.

(** ** Array methods *)

(** [Array.prototype.findIndex]; [None] stands for [-1]. *)
Fixpoint findIndex {A : Type} (p : A -> bool) (l : list A) : option nat :=
  match l with
  | [] => None
  | x :: l' => if p x then Some O else S <$> findIndex p l'
  end.

(** [Array.prototype.find]; [None] stands for [undefined]. *)
Fixpoint find {A : Type} (p : A -> bool) (l : list A) : option A :=
  match l with
  | [] => None
  | x :: l' => if p x then Some x else find p l'
  end.

(** [n.id === k] where [k] is the result of [parseInt]; [NaN] equals
    nothing. *)
Definition id_is (k : option Z) (n : Note) : bool :=
  match k with
  | Some z => id n =? z
  | None => false
  end.

(** ** The five handlers *)

Definition not_found : Response :=
  {| status := 404; success := false; message := Some "Note not found"%string;
     count := None; data := None |}.

(** [now1] is the reading behind [createdAt], [now2] the one behind
    [updatedAt]: the object literal evaluates [new Date()] once for each.
    [nextId++] yields the counter's value and then advances it. *)
Definition createNote (now1 now2 : Timestamp) (req : Request) (st : Store)
  : Store * Response :=
  let title := body_title req in
  let content := body_content req in
  if negb (ToBoolean title) || negb (ToBoolean content) then
    (st, {| status := 400; success := false;
            message := Some "Title and content are required"%string;
            count := None; data := None |})
  else
    let newNote :=
      {| id := nextId st; title := title; content := content;
         createdAt := now1; updatedAt := now2 |} in
    ({| notes := notes st ++ [newNote]; nextId := nextId st + 1 |},
     {| status := 201; success := true;
        message := Some "Note created successfully"%string;
        count := None; data := Some (OneNote newNote) |}).

Definition getAllNotes (req : Request) (st : Store) : Store * Response :=
  (st, {| status := 200; success := true; message := None;
          count := Some (Z.of_nat (length (notes st)));
          data := Some (AllNotes (notes st)) |}).

Definition getNoteById (req : Request) (st : Store) : Store * Response :=
  match find (id_is (parseInt (params_id req))) (notes st) with
  | None => (st, not_found)
  | Some note =>
      (st, {| status := 200; success := true; message := None;
              count := None; data := Some (OneNote note) |})
  end.

(** The three assignments go through [notes[noteIndex]], the object in the
    array, one after the other; [noteIndex] comes from [findIndex] and is
    always in range.  [data] is read from the array after them. *)
Definition updateNote (now : Timestamp) (req : Request) (st : Store)
  : Store * Response :=
  let title := body_title req in
  let content := body_content req in
  match findIndex (id_is (parseInt (params_id req))) (notes st) with
  | None => (st, not_found)
  | Some noteIndex =>
      let notes1 :=
        if is_defined title then alter (set_title title) noteIndex (notes st)
        else notes st in
      let notes2 :=
        if is_defined content then alter (set_content content) noteIndex notes1
        else notes1 in
      let notes3 := alter (set_updatedAt now) noteIndex notes2 in
      ({| notes := notes3; nextId := nextId st |},
       {| status := 200; success := true;
          message := Some "Note updated successfully"%string;
          count := None; data := OneNote <$> notes3 !! noteIndex |})
  end.

(** [notes.splice(noteIndex, 1)] removes one element in place and returns
    the array of what it removed; [[0]] is that element. *)
Definition deleteNote (req : Request) (st : Store) : Store * Response :=
  match findIndex (id_is (parseInt (params_id req))) (notes st) with
  | None => (st, not_found)
  | Some noteIndex =>
      let deletedNote := notes st !! noteIndex in
      ({| notes := delete noteIndex (notes st); nextId := nextId st |},
       {| status := 200; success := true;
          message := Some "Note deleted successfully"%string;
          count := None; data := OneNote <$> deletedNote |})
  end.

(** ** Sequences of calls *)

Inductive Call : Type :=
| CreateNote (now1 now2 : Timestamp) (req : Request)
| GetAllNotes (req : Request)
| GetNoteById (req : Request)
| UpdateNote (now : Timestamp) (req : Request)
| DeleteNote (req : Request).

Definition handle (c : Call) (st : Store) : Store * Response :=
  match c with
  | CreateNote now1 now2 req => createNote now1 now2 req st
  | GetAllNotes req => getAllNotes req st
  | GetNoteById req => getNoteById req st
  | UpdateNote now req => updateNote now req st
  | DeleteNote req => deleteNote req st
  end.

(** The calls are served one after the other (one event-loop turn each). *)
Fixpoint run (cs : list Call) (st : Store) : Store * list Response :=
  match cs with
  | [] => (st, [])
  | c :: cs' =>
      let '(st1, r) := handle c st in
      let '(st2, rs) := run cs' st1 in
      (st2, r :: rs)
  end.

Definition reachable (st : Store) : Prop :=
  exists cs, (run cs initial).1 = st.

Definition body (t c : JSValue) : Request :=
  {| params_id := []; body_title := t; body_content := c |}.

Definition by_id (s : JSString) : Request :=
  {| params_id := s; body_title := JUndefined; body_content := JUndefined |}.

Definition Str (s : string) : JSValue := JStr (js s).

(** ** Notions used by the statements *)

(** The id a response reports as newly assigned: the [data.id] of a 201. *)
Definition assigned_id (r : Response) : option Z :=
  if status r =? 201 then
    match data r with
    | Some (OneNote n) => Some (id n)
    | _ => None
    end
  else None.

Definition assigned_ids (rs : list Response) : list Z := omap assigned_id rs.

(** The clock readings a call takes in a given store, in the order they are
    taken: two by a [createNote] that passes validation, one by an
    [updateNote] that finds its note, none otherwise. *)
Definition readings (c : Call) (st : Store) : list Timestamp :=
  match c with
  | CreateNote now1 now2 req =>
      if negb (ToBoolean (body_title req)) || negb (ToBoolean (body_content req))
      then [] else [now1; now2]
  | UpdateNote now req =>
      match findIndex (id_is (parseInt (params_id req))) (notes st) with
      | None => []
      | Some _ => [now]
      end
  | _ => []
  end.

(** All the readings taken while the calls are served from [st]. *)
Fixpoint clock (cs : list Call) (st : Store) : list Timestamp :=
  match cs with
  | [] => []
  | c :: cs' => readings c st ++ clock cs' (handle c st).1
  end.

(** The 400 answer of [createNote]. *)
Definition validation_error (r : Response) : Prop :=
  status r = 400 /\ success r = false /\
  message r = Some "Title and content are required"%string /\ data r = None.

(** No stored note has the id that [parseInt] returned. *)
Definition no_match (k : option Z) (st : Store) : Prop :=
  Forall (fun n => Some (id n) <> k) (notes st).

(** A 200 answer carrying one note. *)
Definition ok_note (msg : option string) (n : Note) : Response :=
  {| status := 200; success := true; message := msg; count := None;
     data := Some (OneNote n) |}.

Definition is_decimal_digit (c : N) : bool := ((48 <=? c) && (c <=? 57))%N.

(** What the specification calls a numeric identifier: an optional sign
    followed by decimal digits only, at least one. *)
Definition numeric (s : JSString) : bool :=
  let body := (strip_sign s).2 in
  negb (Nat.eqb (length body) 0) && forallb is_decimal_digit body.

(** The condition the specification words give for a rejected field:
    absent, or the empty text. *)
Definition missing_or_empty (v : JSValue) : Prop :=
  v = JUndefined \/ v = JStr [].

(** A field as the data model has it: a text, or absent. *)
Definition text_or_missing (v : JSValue) : Prop :=
  v = JUndefined \/ exists s, v = JStr s.

(** The note [updateNote] leaves in the place of [n]. *)
Definition updated (now : Timestamp) (req : Request) (n : Note) : Note :=
  {| id := id n;
     title := if is_defined (body_title req) then body_title req else title n;
     content :=
       if is_defined (body_content req) then body_content req else content n;
     createdAt := createdAt n;
     updatedAt := now |}.

(** A small run used to instantiate the statements: one note is created,
    as the first request of the test suite does. *)
Definition sample_create : Call :=
  CreateNote 5 6 (body (Str "Test Note") (Str "This is a test note content")).

Definition sample_store : Store := (run [sample_create] initial).1.

Definition sample_note : Note :=
  mkNote 1 (Str "Test Note") (Str "This is a test note content") 5 6.

Definition sample_update : Request :=
  {| params_id := js "1"; body_title := JStr []; body_content := JUndefined |}.

(** The answer of a [deleteNote] that removed a note. *)
Definition is_deleted (r : Response) : bool :=
  (status r =? 200) &&
  match message r with
  | Some m => String.eqb m "Note deleted successfully"
  | None => false
  end.

Definition deleted_count (rs : list Response) : nat :=
  length (filter (fun r => is_deleted r = true) rs).

(** The id a response reports as removed: the [data.id] of the answer of
    a [deleteNote] that removed a note. *)
Definition deleted_id (r : Response) : option Z :=
  if is_deleted r then
    match data r with
    | Some (OneNote n) => Some (id n)
    | _ => None
    end
  else None.

Definition deleted_ids (rs : list Response) : list Z := omap deleted_id rs.

(** The bodies of two successive [updateNote] calls seen as one body: a
    field of the second call wins when it is not [undefined]. *)
Definition merge (req1 req2 : Request) : Request :=
  {| params_id := params_id req2;
     body_title :=
       if is_defined (body_title req2) then body_title req2
       else body_title req1;
     body_content :=
       if is_defined (body_content req2) then body_content req2
       else body_content req1 |}.

(** The call is an [updateNote] or a [deleteNote] whose identifier reads as
    the integer [z]. *)
Definition addresses (c : Call) (z : Z) : Prop :=
  match c with
  | UpdateNote _ req | DeleteNote req => parseInt (params_id req) = Some z
  | _ => False
  end.

(** Invariant of the store: ids are positive, below the counter, and
    strictly ascending along the array. *)
Definition wf (st : Store) : Prop :=
  1 <= nextId st /\
  Forall (fun n => 1 <= id n < nextId st) (notes st) /\
  StronglySorted Z.lt (id <$> notes st).

(** Value of a text of decimal digits, most significant first. *)
Definition decimal_value (s : JSString) : Z :=
  fold_left (fun acc c => acc * 10 + (Z.of_N c - 48)) s 0.

(** ** Facts about the array methods *)

Section ArrayMethods.
Context {A : Type} (p : A -> bool).

Lemma findIndex_None (l : list A) :
  findIndex p l = None <-> Forall (fun x => p x = false) l.
Proof.
  induction l as [|x l IH]; simpl.
  - split; [constructor | reflexivity].
  - destruct (p x) eqn:Hx.
    + split; [discriminate | intros H; inversion H; congruence].
    + rewrite fmap_None, IH. split.
      * intros H; constructor; assumption.
      * intros H; inversion H; assumption.
Qed.

Lemma findIndex_Some (l : list A) (k : nat) :
  findIndex p l = Some k <->
  exists l1 x l2, l = l1 ++ x :: l2 /\ length l1 = k /\ p x = true /\
                  Forall (fun y => p y = false) l1.
Proof.
  revert k; induction l as [|x l IH]; intros k; simpl.
  - split; [discriminate |].
    intros (l1 & y & l2 & H & _); destruct l1; discriminate.
  - destruct (p x) eqn:Hx.
    + split.
      * intros [= <-]. exists [], x, l. repeat split; auto.
      * intros (l1 & y & l2 & H & Hk & Hy & Hl1).
        destruct l1 as [|z l1]; simpl in *; [congruence |].
        injection H as -> ->. inversion Hl1; congruence.
    + rewrite fmap_Some. split.
      * intros (j & Hj & ->). apply IH in Hj as (l1 & y & l2 & -> & <- & Hy & Hl1).
        exists (x :: l1), y, l2. repeat split; auto.
      * intros (l1 & y & l2 & H & Hk & Hy & Hl1).
        destruct l1 as [|z l1]; simpl in *.
        -- injection H as -> ->. congruence.
        -- injection H as -> ->. exists (length l1). split; [| congruence].
           apply IH. exists l1, y, l2. inversion Hl1; subst. repeat split; auto.
Qed.

(** [find] returns the element at the index [findIndex] returns. *)
Lemma find_findIndex (l : list A) :
  find p l = findIndex p l ≫= (fun k => l !! k).
Proof.
  induction l as [|x l IH]; simpl; [reflexivity |].
  destruct (p x); [reflexivity |].
  rewrite IH. destruct (findIndex p l); reflexivity.
Qed.

Lemma findIndex_lookup (l : list A) (k : nat) :
  findIndex p l = Some k -> exists x, l !! k = Some x /\ p x = true.
Proof.
  intros (l1 & x & l2 & -> & <- & Hx & _)%findIndex_Some.
  exists x. split; [| assumption].
  rewrite lookup_app_r by lia. by rewrite Nat.sub_diag.
Qed.
End ArrayMethods.

(** ** [parseInt] reads back a decimal rendering *)

Lemma is_decimal_digit_spec (c : N) :
  is_decimal_digit c = true <-> (48 <= c <= 57)%N.
Proof. unfold is_decimal_digit. rewrite andb_true_iff, !N.leb_le. tauto. Qed.

Lemma digit_value_decimal (c : N) :
  is_decimal_digit c = true ->
  digit_value c = Some (Z.of_N c - 48) /\ 0 <= Z.of_N c - 48 < 10.
Proof.
  intros H. unfold digit_value. fold (is_decimal_digit c). rewrite H.
  apply is_decimal_digit_spec in H. split; [reflexivity | lia].
Qed.

Lemma radix_prefix_decimal (s : JSString) :
  forallb is_decimal_digit s = true ->
  radix_prefix 10 s = (fun c => Z.of_N c - 48) <$> s.
Proof.
  induction s as [|c s IH]; simpl; [reflexivity |].
  intros [Hc Hs]%andb_true_iff.
  destruct (digit_value_decimal c Hc) as [-> Hlt].
  destruct (Z.ltb_spec (Z.of_N c - 48) 10); [| lia].
  by rewrite IH.
Qed.

Lemma radix_value_decimal (s : JSString) :
  radix_value 10 ((fun c => Z.of_N c - 48) <$> s) = decimal_value s.
Proof.
  unfold radix_value, decimal_value. generalize 0.
  induction s as [|c s IH]; intros a; simpl; [reflexivity | apply IH].
Qed.

Lemma decimal_value_from (s : JSString) (a : Z) :
  fold_left (fun acc c => acc * 10 + (Z.of_N c - 48)) s a
  = a * 10 ^ Z.of_nat (length s) + decimal_value s.
Proof.
  unfold decimal_value. revert a.
  induction s as [|c s IH]; intros a; simpl fold_left.
  - simpl. lia.
  - rewrite IH, (IH (0 * 10 + _)).
    replace (Z.of_nat (length (c :: s))) with (Z.succ (Z.of_nat (length s)))
      by (simpl length; lia).
    rewrite Z.pow_succ_r by lia. ring.
Qed.

Lemma decimal_value_cons (c : N) (s : JSString) :
  decimal_value (c :: s)
  = (Z.of_N c - 48) * 10 ^ Z.of_nat (length s) + decimal_value s.
Proof.
  unfold decimal_value at 1. simpl fold_left. rewrite decimal_value_from. ring.
Qed.

Lemma parseInt_decimal_text (s : JSString) :
  s <> [] -> forallb is_decimal_digit s = true ->
  parseInt s = Some (decimal_value s).
Proof.
  intros Hne Hs. destruct s as [|c s]; [done |].
  pose proof Hs as Hall.
  simpl in Hs. apply andb_true_iff in Hs as [Hc Hs].
  pose proof (proj1 (is_decimal_digit_spec c) Hc) as Hr.
  assert (Hws : is_StrWhiteSpaceChar c = false).
  { unfold is_StrWhiteSpaceChar.
    repeat match goal with
    | |- context [(?a <=? ?b)%N] => destruct (N.leb_spec a b); try lia
    | |- context [(?a =? ?b)%N] => destruct (N.eqb_spec a b); try lia
    end; reflexivity. }
  unfold parseInt. simpl trim_start. rewrite Hws.
  unfold strip_sign.
  destruct (N.eqb_spec c 45); [lia |]. destruct (N.eqb_spec c 43); [lia |].
  assert (Hpre : strip_prefix (c :: s) = (10, c :: s)).
  { unfold strip_prefix. destruct s as [|c2 s]; [reflexivity |].
    simpl in Hs. apply andb_true_iff in Hs as [Hc2 _].
    apply is_decimal_digit_spec in Hc2.
    destruct (N.eqb_spec c2 120); [lia |]. destruct (N.eqb_spec c2 88); [lia |].
    by rewrite andb_false_r. }
  rewrite Hpre, (radix_prefix_decimal _ Hall), <- radix_value_decimal.
  cbn [fmap list_fmap]. by rewrite Z.mul_1_l.
Qed.

Lemma decimal_digits_spec (fuel : nat) :
  forall (z : Z) (acc : JSString),
    0 <= z < 2 ^ Z.of_nat fuel ->
    forallb is_decimal_digit acc = true ->
    forallb is_decimal_digit (decimal_digits fuel z acc) = true /\
    decimal_value (decimal_digits fuel z acc)
    = z * 10 ^ Z.of_nat (length acc) + decimal_value acc.
Proof.
  induction fuel as [|fuel IH]; intros z acc Hz Hacc.
  - simpl in *. split; [assumption |]. assert (z = 0) as -> by lia. lia.
  - cbn [decimal_digits].
    pose proof (Z.mod_pos_bound z 10 ltac:(lia)) as Hm.
    assert (Hd : is_decimal_digit (Z.to_N (z mod 10) + 48)%N = true)
      by (apply is_decimal_digit_spec; lia).
    assert (Hacc' : forallb is_decimal_digit ((Z.to_N (z mod 10) + 48)%N :: acc)
                    = true) by (simpl; by rewrite Hd, Hacc).
    assert (Hv : Z.of_N (Z.to_N (z mod 10) + 48) - 48 = z mod 10) by lia.
    destruct (Z.ltb_spec z 10) as [Hlt | Hge].
    + split; [assumption |].
      rewrite decimal_value_cons, Hv, Z.mod_small by lia. reflexivity.
    + assert (Hq : 0 <= z / 10 < 2 ^ Z.of_nat fuel).
      { split; [apply Z.div_pos; lia |].
        apply Z.div_lt_upper_bound; [lia |].
        replace (Z.of_nat (S fuel)) with (Z.succ (Z.of_nat fuel)) in Hz by lia.
        rewrite Z.pow_succ_r in Hz by lia.
        assert (0 < 2 ^ Z.of_nat fuel) by (apply Z.pow_pos_nonneg; lia). lia. }
      destruct (IH (z / 10) _ Hq Hacc') as [Hall Hval].
      split; [assumption |].
      rewrite Hval, decimal_value_cons, Hv.
      replace (Z.of_nat (length ((Z.to_N (z mod 10) + 48)%N :: acc)))
        with (Z.succ (Z.of_nat (length acc))) by (simpl length; lia).
      rewrite Z.pow_succ_r by lia.
      pose proof (Z.div_mod z 10 ltac:(lia)) as Hdm.
      rewrite Hdm at 3. ring.
Qed.

Lemma decimal_digits_nonempty (fuel : nat) (z : Z) (acc : JSString) :
  decimal_digits (S fuel) z acc <> [].
Proof.
  revert z acc. induction fuel as [|fuel IH]; intros z acc.
  - simpl. destruct (z <? 10); discriminate.
  - cbn [decimal_digits]. destruct (z <? 10); [discriminate | apply IH].
Qed.

(** The identifier a client writes into the URL is read back exactly. *)
Lemma parseInt_decimal (z : Z) : 0 <= z -> parseInt (decimal z) = Some z.
Proof.
  intros Hz. unfold decimal.
  assert (Hb : 0 <= z < 2 ^ Z.of_nat (S (Z.to_nat (Z.log2 z)))).
  { split; [assumption |].
    destruct (Z.eq_dec z 0) as [-> | Hnz]; [reflexivity |].
    pose proof (Z.log2_spec z ltac:(lia)) as [_ Hup].
    pose proof (Z.log2_nonneg z).
    replace (Z.of_nat (S (Z.to_nat (Z.log2 z)))) with (Z.succ (Z.log2 z)) by lia.
    assumption. }
  destruct (decimal_digits_spec _ z [] Hb eq_refl) as [Hall Hval].
  rewrite parseInt_decimal_text; [| apply decimal_digits_nonempty | assumption].
  rewrite Hval. unfold decimal_value. simpl. f_equal. lia.
Qed.

(** ** The store invariant *)

Lemma alter_preserves_field {B : Type} (f : Note -> B) (g : Note -> Note)
    (l : list Note) (k : nat) :
  (forall n, f (g n) = f n) -> f <$> alter g k l = f <$> l.
Proof.
  intros Hg. rewrite (list_fmap_alter f g (fun b => b)).
  - by apply list_alter_id.
  - apply Forall_forall. intros n _. apply Hg.
Qed.

Lemma StronglySorted_delete {A : Type} (R : A -> A -> Prop) (l : list A)
    (k : nat) :
  StronglySorted R l -> StronglySorted R (delete k l).
Proof.
  intros H. revert k. induction H as [|x l Hl IH Hx]; intros [|k]; simpl.
  - constructor.
  - constructor.
  - assumption.
  - constructor; [apply IH | by apply Forall_delete].
Qed.

(** The three in-place assignments of [updateNote] leave every [id] and
    [createdAt] of the array as it was. *)
Lemma updateNote_notes (now : Timestamp) (req : Request) (st : Store) :
  exists l,
    notes (updateNote now req st).1 = l /\
    nextId (updateNote now req st).1 = nextId st /\
    id <$> l = id <$> notes st /\
    createdAt <$> l = createdAt <$> notes st /\
    length l = length (notes st).
Proof.
  unfold updateNote.
  destruct (findIndex _ (notes st)) as [k|]; simpl; [| eauto 10].
  eexists; split; [reflexivity |]. split; [reflexivity |].
  destruct (is_defined (body_title req)), (is_defined (body_content req));
    rewrite ?length_alter, ?alter_preserves_field by reflexivity; auto.
Qed.

Lemma wf_initial : wf initial.
Proof. repeat split; simpl; [lia | constructor | constructor]. Qed.

Lemma handle_wf (c : Call) (st : Store) : wf st -> wf (handle c st).1.
Proof.
  intros (Hnext & Hids & Hsorted). destruct c as [t1 t2 req|req|req|t req|req]; simpl.
  - unfold createNote.
    destruct (negb _ || negb _); simpl; [by repeat split |].
    repeat split; simpl.
    + lia.
    + apply Forall_app_2.
      * eapply Forall_impl; [exact Hids |]. simpl. intros n Hn. lia.
      * repeat constructor; simpl; lia.
    + rewrite fmap_app. apply StronglySorted_app. repeat split.
      * intros x1 x2 (n & -> & Hn)%list_elem_of_fmap Hx2.
        simpl in Hx2. apply list_elem_of_singleton in Hx2 as ->.
        rewrite Forall_forall in Hids. apply Hids in Hn. lia.
      * assumption.
      * repeat constructor.
  - by repeat split.
  - unfold getNoteById. destruct (find _ _); by repeat split.
  - destruct (updateNote_notes t req st) as (l & Hl & Hn & Hid & _ & _).
    unfold wf. rewrite Hl, Hn, Hid. repeat split; try assumption.
    assert (Hz : Forall (fun z => 1 <= z < nextId st) (id <$> notes st))
      by (by apply Forall_fmap).
    rewrite <- Hid in Hz. by apply Forall_fmap in Hz.
  - unfold deleteNote. destruct (findIndex _ _) as [k|]; simpl; [| by repeat split].
    repeat split; simpl; [assumption | by apply Forall_delete |].
    rewrite list_fmap_delete. by apply StronglySorted_delete.
Qed.

Lemma run_cons (c : Call) (cs : list Call) (st : Store) :
  run (c :: cs) st
  = ((run cs (handle c st).1).1, (handle c st).2 :: (run cs (handle c st).1).2).
Proof.
  simpl. destruct (handle c st) as [st1 r]. simpl.
  by destruct (run cs st1).
Qed.

Lemma run_wf (cs : list Call) : forall st, wf st -> wf (run cs st).1.
Proof.
  induction cs as [|c cs IH]; intros st Hst; [assumption |].
  rewrite run_cons. simpl. apply IH. by apply handle_wf.
Qed.

Lemma reachable_wf (st : Store) : reachable st -> wf st.
Proof. intros [cs <-]. apply run_wf, wf_initial. Qed.

(** In a store with ascending ids the search by id stops at the note
    itself. *)
Lemma findIndex_by_id (l : list Note) (k : nat) (n : Note) :
  StronglySorted Z.lt (id <$> l) -> l !! k = Some n ->
  findIndex (id_is (Some (id n))) l = Some k.
Proof.
  intros Hs Hk. apply list_elem_of_split_length in Hk as (l1 & l2 & -> & ->).
  apply findIndex_Some. exists l1, n, l2. repeat split.
  - simpl. apply Z.eqb_refl.
  - rewrite fmap_app, fmap_cons in Hs.
    apply Forall_forall. intros x Hx. simpl. apply Z.eqb_neq.
    enough (id x < id n) by lia.
    eapply (StronglySorted_app_1_elem_of _ _ _ _ _ Hs).
    + by apply list_elem_of_fmap_2.
    + left.
Qed.

Lemma no_match_spec (k : option Z) (st : Store) :
  no_match k st <-> findIndex (id_is k) (notes st) = None.
Proof.
  rewrite findIndex_None. unfold no_match. apply Forall_iff. intros n.
  destruct k as [z|]; simpl.
  - rewrite Z.eqb_neq. split; congruence.
  - split; [reflexivity | discriminate].
Qed.

(** ** What each handler does on a match *)

Lemma alter_at {A : Type} (f : A -> A) (l : list A) (k : nat) (x : A) :
  l !! k = Some x -> alter f k l = <[k := f x]> l.
Proof.
  revert k. induction l as [|y l IH]; intros [|k] H; simpl in *; try done.
  - by injection H as ->.
  - f_equal. by apply IH.
Qed.

Lemma updateNote_found (now : Timestamp) (req : Request) (st : Store)
    (k : nat) (n : Note) :
  findIndex (id_is (parseInt (params_id req))) (notes st) = Some k ->
  notes st !! k = Some n ->
  updateNote now req st
  = ({| notes := <[k := updated now req n]> (notes st); nextId := nextId st |},
     ok_note (Some "Note updated successfully"%string) (updated now req n)).
Proof.
  intros Hfind Hk. unfold updateNote. rewrite Hfind.
  pose proof (lookup_lt_Some _ _ _ Hk) as Hlt.
  assert (Hins : forall (m : Note) (l : list Note),
                   length l = length (notes st) ->
                   <[k := m]> l !! k = Some m)
    by (intros m l Hl; apply list_lookup_insert_eq; lia).
  unfold updated, ok_note.
  destruct (is_defined (body_title req)), (is_defined (body_content req));
    repeat first
      [ rewrite (alter_at _ (notes st) k n Hk)
      | erewrite (alter_at _ (<[k := _]> (notes st)) k)
          by (apply Hins; by rewrite ?length_insert)
      | rewrite list_insert_insert_eq ];
    rewrite Hins by (by rewrite ?length_insert); reflexivity.
Qed.

Lemma deleteNote_found (req : Request) (st : Store) (l1 l2 : list Note)
    (n : Note) :
  notes st = l1 ++ n :: l2 ->
  findIndex (id_is (parseInt (params_id req))) (notes st) = Some (length l1) ->
  deleteNote req st
  = ({| notes := l1 ++ l2; nextId := nextId st |},
     ok_note (Some "Note deleted successfully"%string) n).
Proof.
  intros Hl Hfind. unfold deleteNote. rewrite Hfind, Hl.
  rewrite delete_middle, list_lookup_middle by reflexivity. reflexivity.
Qed.

(** ** Identifiers *)

Lemma handle_assigned (c : Call) (st : Store) :
  (assigned_id (handle c st).2 = None /\ nextId (handle c st).1 = nextId st) \/
  (assigned_id (handle c st).2 = Some (nextId st) /\
   nextId (handle c st).1 = nextId st + 1).
Proof.
  destruct c as [t1 t2 req|req|req|t req|req]; simpl.
  - unfold createNote. destruct (negb _ || negb _); simpl; auto.
  - auto.
  - unfold getNoteById. destruct (find _ _); auto.
  - unfold updateNote. destruct (findIndex _ _); auto.
  - unfold deleteNote. destruct (findIndex _ _); auto.
Qed.

Lemma run_assigned (cs : list Call) :
  forall st,
    nextId st <= nextId (run cs st).1 /\
    Forall (fun i => nextId st <= i < nextId (run cs st).1)
           (assigned_ids (run cs st).2) /\
    StronglySorted Z.lt (assigned_ids (run cs st).2).
Proof.
  induction cs as [|c cs IH]; intros st.
  - simpl. repeat split; [lia | constructor | constructor].
  - rewrite run_cons. cbn [fst snd].
    destruct (IH (handle c st).1) as (Hle & Hall & Hsorted).
    unfold assigned_ids in *. cbn [omap list_omap].
    destruct (handle_assigned c st) as [[-> Hn] | [-> Hn]]; rewrite Hn in *.
    + auto.
    + repeat split; [lia | |].
      * constructor; [lia |].
        eapply Forall_impl; [exact Hall |]. simpl. intros i Hi. lia.
      * constructor; [assumption |].
        eapply Forall_impl; [exact Hall |]. simpl. intros i Hi. lia.
Qed.

Lemma StronglySorted_lt_NoDup (l : list Z) : StronglySorted Z.lt l -> NoDup l.
Proof.
  induction 1 as [|x l Hl IH Hx]; constructor; [| assumption].
  intros Hin. rewrite Forall_forall in Hx. specialize (Hx _ Hin). lia.
Qed.

(** C1. Whatever calls are served from the start of the process, the ids
    handed out by [createNote] (the [data.id] of the 201 answers, in the
    order of the calls) are strictly increasing: each one is greater than
    every id handed out before it.  Hence no id is handed out twice, also
    when notes were deleted in between. *)
Theorem assigned_ids_increasing (cs : list Call) :
  StronglySorted Z.lt (assigned_ids (run cs initial).2) /\
  NoDup (assigned_ids (run cs initial).2).
Proof.
  destruct (run_assigned cs initial) as (_ & _ & Hs).
  split; [assumption | by apply StronglySorted_lt_NoDup].
Qed.

(** ** Validation in [createNote] *)

Lemma createNote_rejects (now1 now2 : Timestamp) (req : Request) (st : Store) :
  ToBoolean (body_title req) = false \/ ToBoolean (body_content req) = false ->
  validation_error (createNote now1 now2 req st).2 /\
  (createNote now1 now2 req st).1 = st.
Proof.
  intros H. unfold createNote.
  replace (negb (ToBoolean (body_title req)) || negb (ToBoolean (body_content req)))
    with true by (destruct H as [-> | ->]; by rewrite ?orb_true_r).
  by repeat split.
Qed.

Lemma createNote_accepts (now1 now2 : Timestamp) (req : Request) (st : Store) :
  ToBoolean (body_title req) = true -> ToBoolean (body_content req) = true ->
  createNote now1 now2 req st
  = ({| notes := notes st ++ [mkNote (nextId st) (body_title req)
                                (body_content req) now1 now2];
        nextId := nextId st + 1 |},
     {| status := 201; success := true;
        message := Some "Note created successfully"%string; count := None;
        data := Some (OneNote (mkNote (nextId st) (body_title req)
                                 (body_content req) now1 now2)) |}).
Proof. intros Ht Hc. unfold createNote. by rewrite Ht, Hc. Qed.

Lemma ToBoolean_false (v : JSValue) :
  ToBoolean v = false <->
  v = JUndefined \/ v = JNull \/ v = JBool false \/
  (exists s, v = JNum (S754_zero s)) \/ v = JNum S754_nan \/ v = JStr [].
Proof.
  split.
  - destruct v as [| |[]|[]|[]| |]; simpl; try discriminate; eauto 10.
  - intros [-> | [-> | [-> | [[s ->] | [-> | ->]]]]]; reflexivity.
Qed.

(** The guard of [createNote] on arbitrary values.  The 400 answer with the
    fixed message "Title and content are required" is given exactly when
    [title] or [content] is falsy ([!title || !content]): absent, [null],
    [false], a zero or NaN number, or the empty text.  On that answer the
    store is the one before the call (same array, same counter). *)
Lemma createNote_validation (now1 now2 : Timestamp) (req : Request)
    (st : Store) :
  (validation_error (createNote now1 now2 req st).2 <->
   ToBoolean (body_title req) = false \/ ToBoolean (body_content req) = false) /\
  (validation_error (createNote now1 now2 req st).2 ->
   (createNote now1 now2 req st).1 = st) /\
  (forall v, ToBoolean v = false <->
     v = JUndefined \/ v = JNull \/ v = JBool false \/
     (exists s, v = JNum (S754_zero s)) \/ v = JNum S754_nan \/ v = JStr []) /\
  (forall s, ToBoolean (JStr s) = false <-> missing_or_empty (JStr s)) /\
  (forall t c, In (t, c) [(Str "", Str "x"); (Str "x", Str "");
                          (Str "", Str ""); (JUndefined, Str "x")] ->
     validation_error (createNote now1 now2 (body t c) st).2 /\
     (createNote now1 now2 (body t c) st).1 = st).
Proof.
  assert (Hiff : validation_error (createNote now1 now2 req st).2 <->
            ToBoolean (body_title req) = false \/
            ToBoolean (body_content req) = false).
  { split; [| intros H; by apply createNote_rejects].
    destruct (ToBoolean (body_title req)) eqn:Ht; [| auto].
    destruct (ToBoolean (body_content req)) eqn:Hc; [| auto].
    rewrite createNote_accepts by assumption. intros [H _]. discriminate. }
  split; [exact Hiff |]. split; [| split; [| split]].
  - intros H%Hiff. by apply createNote_rejects.
  - apply ToBoolean_false.
  - intros s. unfold missing_or_empty.
    destruct s; simpl; split; intros H; try discriminate; auto.
    destruct H; discriminate.
  - intros t c Hin. apply createNote_rejects. simpl in Hin.
    destruct Hin as [H | [H | [H | [H | []]]]]; injection H as <- <-; simpl; auto.
Qed.

(** On values that are not texts the guard is wider than "absent or
    empty": a title that is the number 0 is rejected as well. *)
Lemma createNote_rejects_zero_title :
  ~ (forall now1 now2 req st,
       validation_error (createNote now1 now2 req st).2 <->
       missing_or_empty (body_title req) \/ missing_or_empty (body_content req)).
Proof.
  intros H.
  specialize (H 0 0 (body (JNum (S754_zero false)) (Str "x")) initial).
  destruct H as [H _].
  assert (Hv : missing_or_empty (JNum (S754_zero false)) \/
               missing_or_empty (Str "x")) by (apply H; by repeat split).
  destruct Hv as [[Hv | Hv] | [Hv | Hv]]; discriminate.
Qed.

Lemma text_falsy (v : JSValue) :
  text_or_missing v -> (ToBoolean v = false <-> missing_or_empty v).
Proof.
  unfold missing_or_empty. intros [-> | [s ->]].
  - split; auto.
  - destruct s; simpl; split; intros H; try discriminate; auto.
    destruct H; discriminate.
Qed.

(** C2. For [title] and [content] that are each a text or absent,
    [createNote] answers 400 with the fixed message "Title and content are
    required" exactly when [title] or [content] is absent or the empty
    text; on that answer the store is completely unchanged (same array,
    hence same size and contents, and same counter), and otherwise the
    answer is 201.  In particular the calls with [("", "x")], [("x", "")],
    [("", "")] and [(undefined, "x")] are all answered with that error and
    leave the store as it was. *)
Theorem createNote_validation_text (now1 now2 : Timestamp) (req : Request)
    (st : Store) :
  text_or_missing (body_title req) -> text_or_missing (body_content req) ->
  (validation_error (createNote now1 now2 req st).2 <->
   missing_or_empty (body_title req) \/ missing_or_empty (body_content req)) /\
  (validation_error (createNote now1 now2 req st).2 ->
   (createNote now1 now2 req st).1 = st) /\
  (~ validation_error (createNote now1 now2 req st).2 ->
   status (createNote now1 now2 req st).2 = 201) /\
  (forall t c, In (t, c) [(Str "", Str "x"); (Str "x", Str "");
                          (Str "", Str ""); (JUndefined, Str "x")] ->
     validation_error (createNote now1 now2 (body t c) st).2 /\
     (createNote now1 now2 (body t c) st).1 = st).
Proof.
  intros Ht Hc.
  destruct (createNote_validation now1 now2 req st)
    as (Hiff & Hsame & _ & _ & Hcases).
  rewrite <- (text_falsy _ Ht), <- (text_falsy _ Hc).
  split; [exact Hiff |]. split; [exact Hsame |]. split; [| exact Hcases].
  intros Hno.
  destruct (ToBoolean (body_title req)) eqn:Et;
    [| exfalso; apply Hno, Hiff; by left].
  destruct (ToBoolean (body_content req)) eqn:Ec;
    [| exfalso; apply Hno, Hiff; by right].
  by rewrite createNote_accepts.
Qed.

(** ** [updateNote] on a match *)

Lemma stored_note_found (st : Store) (n : Note) (s : JSString) :
  reachable st -> n ∈ notes st -> parseInt s = Some (id n) ->
  exists l1 l2,
    notes st = l1 ++ n :: l2 /\
    findIndex (id_is (parseInt s)) (notes st) = Some (length l1).
Proof.
  intros (_ & _ & Hs)%reachable_wf Hn ->.
  apply list_elem_of_lookup in Hn as [k Hk].
  pose proof (findIndex_by_id _ _ _ Hs Hk) as Hfind.
  apply list_elem_of_split_length in Hk as (l1 & l2 & Hl & ->).
  eauto.
Qed.

(** C3. For a stored note [n] whose id is the one the request names,
    [updateNote] puts in its place the note with the same [id] and
    [createdAt], with [title] (resp. [content]) replaced by the body's value
    whenever that value is not [undefined] (so an empty text does
    overwrite) and kept otherwise, and with [updatedAt] set to the clock
    reading of the call, whether or not anything else changed; the answer is
    200 and carries that note. *)
Theorem updateNote_on_match (now : Timestamp) (req : Request) (st : Store)
    (n : Note) :
  reachable st -> n ∈ notes st -> parseInt (params_id req) = Some (id n) ->
  exists k n',
    notes st !! k = Some n /\
    updateNote now req st
    = ({| notes := <[k := n']> (notes st); nextId := nextId st |},
       ok_note (Some "Note updated successfully"%string) n') /\
    id n' = id n /\ createdAt n' = createdAt n /\ updatedAt n' = now /\
    (body_title req = JUndefined -> title n' = title n) /\
    (body_title req <> JUndefined -> title n' = body_title req) /\
    (body_content req = JUndefined -> content n' = content n) /\
    (body_content req <> JUndefined -> content n' = body_content req).
Proof.
  intros Hr Hn Hp.
  destruct (stored_note_found st n _ Hr Hn Hp) as (l1 & l2 & Hl & Hfind).
  assert (Hk : notes st !! length l1 = Some n)
    by (rewrite Hl; by apply list_lookup_middle).
  exists (length l1), (updated now req n).
  split; [assumption |]. split; [by apply updateNote_found |].
  unfold updated; simpl. repeat split.
  - by intros ->.
  - destruct (body_title req); done.
  - by intros ->.
  - destruct (body_content req); done.
Qed.

(** ** Not found *)

Lemma handlers_by_index (now : Timestamp) (req : Request) (st : Store) :
  match findIndex (id_is (parseInt (params_id req))) (notes st) with
  | None =>
      getNoteById req st = (st, not_found) /\
      updateNote now req st = (st, not_found) /\
      deleteNote req st = (st, not_found)
  | Some _ =>
      (getNoteById req st).1 = st /\
      status (getNoteById req st).2 = 200 /\
      status (updateNote now req st).2 = 200 /\
      status (deleteNote req st).2 = 200
  end.
Proof.
  unfold getNoteById, updateNote, deleteNote. rewrite find_findIndex.
  destruct (findIndex _ _) as [k|] eqn:Hfind; simpl; [| done].
  apply findIndex_lookup in Hfind as (x & -> & _). done.
Qed.

(** C4, as the code has it.  The identifier of the request is read with
    [parseInt]: white space, a sign and a [0x] prefix in front are accepted
    and whatever follows the digits is ignored.  [getNoteById], [updateNote]
    and [deleteNote] answer "Note not found" (404) exactly when no stored
    note has the integer read, and then leave the store as it was; otherwise
    they answer 200.  An identifier from which [parseInt] reads no integer
    (NaN) matches no note, so it gets the same 404 and no other kind of
    error. *)
Theorem not_found_exactly_without_match (now : Timestamp) (req : Request)
    (st : Store) :
  ((getNoteById req st).2 = not_found <->
   no_match (parseInt (params_id req)) st) /\
  ((updateNote now req st).2 = not_found <->
   no_match (parseInt (params_id req)) st) /\
  ((deleteNote req st).2 = not_found <->
   no_match (parseInt (params_id req)) st) /\
  (no_match (parseInt (params_id req)) st ->
   (getNoteById req st).1 = st /\ (updateNote now req st).1 = st /\
   (deleteNote req st).1 = st) /\
  (~ no_match (parseInt (params_id req)) st ->
   status (getNoteById req st).2 = 200 /\
   status (updateNote now req st).2 = 200 /\
   status (deleteNote req st).2 = 200) /\
  (parseInt (params_id req) = None ->
   no_match (parseInt (params_id req)) st).
Proof.
  assert (Hnan : parseInt (params_id req) = None ->
                 no_match (parseInt (params_id req)) st).
  { intros ->. apply Forall_forall. intros n _. discriminate. }
  revert Hnan. pose proof (handlers_by_index now req st) as H.
  rewrite !no_match_spec.
  destruct (findIndex _ (notes st)) as [k|] eqn:Hfind; intros Hnan.
  - destruct H as (Hst & Hg & Hu & Hd).
    split; [| split; [| split; [| split; [| split]]]];
      try discriminate; try done;
      split; try discriminate; intros E; rewrite E in *; discriminate.
  - destruct H as (-> & -> & ->). repeat split; try done.
Qed.

(** C4, as stated, fails: the identifier [1abc] is not numeric, and on a
    store that holds note 1 it is not treated as "no match". *)
Lemma getNoteById_reads_numeric_prefix :
  ~ (forall req st,
       reachable st -> numeric (params_id req) = false ->
       (getNoteById req st).2 = not_found).
Proof.
  intros H.
  specialize (H (by_id (js "1abc"))
                (run [CreateNote 0 0 (body (Str "a") (Str "b"))] initial).1).
  assert (Hr : reachable
                 (run [CreateNote 0 0 (body (Str "a") (Str "b"))] initial).1)
    by (by eexists).
  specialize (H Hr eq_refl). vm_compute in H. discriminate.
Qed.

(** ** [deleteNote] on a match *)

(** C5. For a stored note [n] whose id is the one the request names,
    [deleteNote] takes exactly [n] out of the array, the notes before and
    after it staying as they were and in place, leaves the counter alone, and
    answers 200 with [n] itself as it was stored; [getNoteById] with the same
    identifier then answers "Note not found". *)
Theorem deleteNote_on_match (req : Request) (st : Store) (n : Note) :
  reachable st -> n ∈ notes st -> parseInt (params_id req) = Some (id n) ->
  exists l1 l2,
    notes st = l1 ++ n :: l2 /\
    deleteNote req st
    = ({| notes := l1 ++ l2; nextId := nextId st |},
       ok_note (Some "Note deleted successfully"%string) n) /\
    (n ∉ l1 ++ l2) /\
    getNoteById req (deleteNote req st).1
    = ((deleteNote req st).1, not_found).
Proof.
  intros Hr Hn Hp.
  destruct (stored_note_found st n _ Hr Hn Hp) as (l1 & l2 & Hl & Hfind).
  exists l1, l2. split; [assumption |].
  rewrite (deleteNote_found req st l1 l2 n Hl Hfind). split; [reflexivity |].
  apply reachable_wf in Hr as (_ & _ & Hs).
  rewrite Hl, fmap_app, fmap_cons in Hs.
  apply StronglySorted_app in Hs as (Hlt & _ & Htail).
  apply StronglySorted_cons in Htail as [Hgt _].
  assert (Hno : Forall (fun x => id x <> id n) (l1 ++ l2)).
  { apply Forall_app_2; apply Forall_forall; intros x Hx.
    - enough (id x < id n) by lia.
      apply Hlt; [by apply list_elem_of_fmap_2 | left].
    - rewrite Forall_forall in Hgt.
      enough (id n < id x) by lia. by apply Hgt, list_elem_of_fmap_2. }
  split.
  - intros Hin. rewrite Forall_forall in Hno. by apply (Hno n).
  - cbn [fst]. unfold getNoteById. rewrite find_findIndex.
    replace (findIndex _ _) with (@None nat); [reflexivity |].
    symmetry. apply findIndex_None. cbn [notes]. rewrite Hp.
    eapply Forall_impl; [exact Hno |]. simpl. intros x Hx. by apply Z.eqb_neq.
Qed.

(** ** [createNote] followed by [getNoteById] *)

(** C6, as the code has it.  From a state the process can be in, a call of
    [createNote] with truthy [title] and [content] appends the note whose
    [id] is the counter's value, whose [createdAt] is the first and whose
    [updatedAt] is the second of two successive clock readings, advances the
    counter by one and answers 201 with that note.  A [getNoteById] that
    follows at once with an identifier read as that id, the decimal text of
    the id in particular, answers 200 with the very same note. *)
Theorem createNote_then_getNoteById (now1 now2 : Timestamp) (req : Request)
    (st : Store) :
  reachable st ->
  ToBoolean (body_title req) = true -> ToBoolean (body_content req) = true ->
  exists n st',
    n = mkNote (nextId st) (body_title req) (body_content req) now1 now2 /\
    st' = {| notes := notes st ++ [n]; nextId := nextId st + 1 |} /\
    createNote now1 now2 req st
    = (st', {| status := 201; success := true;
               message := Some "Note created successfully"%string;
               count := None; data := Some (OneNote n) |}) /\
    (forall req', parseInt (params_id req') = Some (id n) ->
       getNoteById req' st' = (st', ok_note None n)) /\
    getNoteById (by_id (decimal (id n))) st' = (st', ok_note None n).
Proof.
  intros Hr Ht Hc. eexists _, _. split; [reflexivity |]. split; [reflexivity |].
  split; [by apply createNote_accepts |].
  apply reachable_wf in Hr as (Hnext & Hids & _).
  assert (Hget : forall req',
            parseInt (params_id req') = Some (nextId st) ->
            getNoteById req' {| notes := notes st ++
                [mkNote (nextId st) (body_title req) (body_content req) now1 now2];
                nextId := nextId st + 1 |}
            = ({| notes := notes st ++
                [mkNote (nextId st) (body_title req) (body_content req) now1 now2];
                nextId := nextId st + 1 |},
               ok_note None (mkNote (nextId st) (body_title req)
                               (body_content req) now1 now2))).
  { intros req' Hp. unfold getNoteById. rewrite find_findIndex. cbn [notes].
    replace (findIndex _ _) with (Some (length (notes st))).
    - simpl. rewrite list_lookup_middle by reflexivity. reflexivity.
    - symmetry. apply findIndex_Some. eexists _, _, []. split; [reflexivity |].
      split; [reflexivity |]. rewrite Hp. simpl. split; [apply Z.eqb_refl |].
      eapply Forall_impl; [exact Hids |]. simpl. intros x Hx.
      apply Z.eqb_neq. lia. }
  split; [exact Hget |].
  apply Hget. simpl. apply parseInt_decimal. lia.
Qed.

(** C6, as stated, fails: the two timestamps of a new note are two readings
    of the clock, and they differ when the clock ticks in between. *)
Lemma createNote_reads_clock_twice :
  ~ (forall now1 now2 req st n,
       data (createNote now1 now2 req st).2 = Some (OneNote n) ->
       createdAt n = updatedAt n).
Proof.
  intros H.
  specialize (H 1000 1001 (body (Str "a") (Str "b")) initial _ eq_refl).
  discriminate.
Qed.

(** ** [getAllNotes] *)

Lemma handle_keeps_order (c : Call) (st : Store) :
  exists kept added,
    notes (handle c st).1 = kept ++ added /\
    id <$> kept `sublist_of` id <$> notes st /\
    (length added <= 1)%nat.
Proof.
  assert (Hsame : forall l : list Note,
            id <$> l = id <$> notes st ->
            exists kept added,
              l = kept ++ added /\
              id <$> kept `sublist_of` id <$> notes st /\
              (length added <= 1)%nat).
  { intros l Hl. exists l, []. rewrite app_nil_r, Hl.
    repeat split; [reflexivity | simpl; lia]. }
  destruct c as [t1 t2 req|req|req|t req|req]; simpl.
  - unfold createNote. destruct (negb _ || negb _); simpl; [by apply Hsame |].
    eexists (notes st), [_]. repeat split; [reflexivity | simpl; lia].
  - by apply Hsame.
  - unfold getNoteById. destruct (find _ _); by apply Hsame.
  - destruct (updateNote_notes t req st) as (l & -> & _ & Hid & _ & _).
    by apply Hsame.
  - unfold deleteNote. destruct (findIndex _ _) as [k|]; simpl; [| by apply Hsame].
    exists (delete k (notes st)), []. rewrite app_nil_r.
    repeat split; [| simpl; lia]. rewrite list_fmap_delete. apply sublist_delete.
Qed.

(** C7. [getAllNotes] answers 200 in every state, the empty store included,
    leaves the store as it is, and carries the whole array, in array order,
    with [count] equal to its length; on the initial store [count] is 0.
    The array is in insertion order: a created note goes to the end, and no
    call reorders the notes that stay (their ids form a subsequence of the
    ids before the call). *)
Theorem getAllNotes_complete (req : Request) (st : Store) :
  getAllNotes req st
  = (st, {| status := 200; success := true; message := None;
            count := Some (Z.of_nat (length (notes st)));
            data := Some (AllNotes (notes st)) |}) /\
  count (getAllNotes req initial).2 = Some 0 /\
  (forall now1 now2 rc n,
     data (createNote now1 now2 rc st).2 = Some (OneNote n) ->
     data (getAllNotes req (createNote now1 now2 rc st).1).2
     = Some (AllNotes (notes st ++ [n]))) /\
  (forall c, exists kept added,
     data (getAllNotes req (handle c st).1).2 = Some (AllNotes (kept ++ added)) /\
     id <$> kept `sublist_of` id <$> notes st /\
     (length added <= 1)%nat).
Proof.
  split; [reflexivity |]. split; [reflexivity |]. split.
  - intros now1 now2 rc n. unfold createNote.
    destruct (negb _ || negb _); simpl; [discriminate |].
    by intros [= <-].
  - intros c. destruct (handle_keeps_order c st) as (kept & added & H & Hs & Hl).
    exists kept, added. simpl. by rewrite H.
Qed.

(** ** Timestamps *)

Lemma handle_timestamps (c : Call) (st : Store) (T : Timestamp) :
  Forall (fun n => createdAt n <= updatedAt n <= T) (notes st) ->
  Forall (Z.le T) (readings c st) -> StronglySorted Z.le (readings c st) ->
  exists T',
    Forall (fun n => createdAt n <= updatedAt n <= T') (notes (handle c st).1) /\
    forall t, T <= t -> Forall (fun r => r <= t) (readings c st) -> T' <= t.
Proof.
  intros Hinv Hge Hsorted.
  assert (Hweak : forall T', T <= T' ->
            Forall (fun n => createdAt n <= updatedAt n <= T') (notes st)).
  { intros T' HT. eapply Forall_impl; [exact Hinv |]. simpl. intros n Hn. lia. }
  destruct c as [t1 t2 req|req|req|t req|req]; simpl in *.
  - unfold createNote. destruct (negb _ || negb _); simpl.
    + exists T. split; [assumption | auto].
    + apply Forall_cons in Hge as [H1 [H2 _]%Forall_cons].
      apply StronglySorted_cons in Hsorted as [[H12 _]%Forall_cons _].
      exists t2. split.
      * apply Forall_app_2; [apply Hweak; lia |].
        repeat constructor; simpl; lia.
      * intros t _ [_ [Ht _]%Forall_cons]%Forall_cons. assumption.
  - exists T. split; [assumption | auto].
  - exists T. split; [| auto].
    unfold getNoteById. by destruct (find _ _).
  - destruct (findIndex (id_is (parseInt (params_id req))) (notes st))
      as [k|] eqn:Hfind.
    + apply Forall_cons in Hge as [H1 _]. exists t. split.
      * destruct (findIndex_lookup _ _ _ Hfind) as (x & Hx & _).
        rewrite (updateNote_found t req st k x Hfind Hx). cbn [fst notes].
        apply Forall_insert; [apply Hweak; lia |].
        rewrite Forall_forall in Hinv.
        specialize (Hinv x (list_elem_of_lookup_2 _ _ _ Hx)).
        unfold updated; simpl. lia.
      * intros t' _ [Ht _]%Forall_cons. assumption.
    + exists T. split; [| auto]. unfold updateNote. by rewrite Hfind.
  - exists T. split; [| auto].
    unfold deleteNote. destruct (findIndex _ _); simpl; [| assumption].
    by apply Forall_delete.
Qed.

Lemma run_timestamps (cs : list Call) :
  forall (st : Store) (T : Timestamp),
    Forall (fun n => createdAt n <= updatedAt n <= T) (notes st) ->
    Forall (Z.le T) (clock cs st) -> StronglySorted Z.le (clock cs st) ->
    Forall (fun n => createdAt n <= updatedAt n) (notes (run cs st).1).
Proof.
  induction cs as [|c cs IH]; intros st T Hinv Hge Hsorted.
  - simpl. eapply Forall_impl; [exact Hinv |]. simpl. intros n Hn. lia.
  - rewrite run_cons. cbn [fst]. cbn [clock] in *.
    apply Forall_app in Hge as [Hc Hcs].
    apply StronglySorted_app in Hsorted as (Hcross & Hsc & Hscs).
    destruct (handle_timestamps c st T Hinv Hc Hsc) as (T' & Hinv' & Hleast).
    apply (IH _ T' Hinv'); [| assumption].
    apply Forall_forall. intros t Ht. apply Hleast.
    + rewrite Forall_forall in Hcs. by apply Hcs.
    + apply Forall_forall. intros r Hr. by apply Hcross.
Qed.

(** C8, as the code has it.  Provided the clock never goes back over the
    readings the calls take (each reading is at least the one before it),
    every note in the store has [createdAt <= updatedAt] after every
    sequence of calls. *)
Theorem createdAt_le_updatedAt (cs : list Call) :
  StronglySorted Z.le (clock cs initial) ->
  Forall (fun n => createdAt n <= updatedAt n) (notes (run cs initial).1).
Proof.
  intros Hsorted.
  apply (run_timestamps cs initial (hd 0 (clock cs initial)));
    [constructor | | assumption].
  destruct (clock cs initial) as [|t ts]; simpl; [constructor |].
  apply StronglySorted_cons in Hsorted as [Ht _].
  constructor; [lia | assumption].
Qed.

(** C8, as stated, fails: the timestamps are readings of the wall clock, and
    nothing in [updateNote] compares the new reading with [createdAt].  When
    the clock was set back between the creation and the update, the stored
    note has [updatedAt] before [createdAt]. *)
Lemma updateNote_after_clock_set_back :
  ~ (forall cs n, n ∈ notes (run cs initial).1 -> createdAt n <= updatedAt n).
Proof.
  intros H.
  specialize (H [CreateNote 10 10 (body (Str "a") (Str "b"));
                 UpdateNote 5 (by_id (js "1"))]
                (mkNote 1 (Str "a") (Str "b") 10 5)).
  assert (Hin : mkNote 1 (Str "a") (Str "b") 10 5
                ∈ notes (run [CreateNote 10 10 (body (Str "a") (Str "b"));
                              UpdateNote 5 (by_id (js "1"))] initial).1)
    by (vm_compute; left).
  apply H in Hin. simpl in Hin. lia.
Qed.

(** ** What [updateNote] leaves alone *)

(** C9. Whatever the request and the store, after [updateNote] the array has
    the same length, every position holds a note with the [id] and the
    [createdAt] it had before, the counter is unchanged, and every position
    other than the one found by the search holds the very note it held; a
    note whose id is not the one the request names is therefore untouched. *)
Theorem updateNote_frame (now : Timestamp) (req : Request) (st : Store) :
  id <$> notes (updateNote now req st).1 = id <$> notes st /\
  createdAt <$> notes (updateNote now req st).1 = createdAt <$> notes st /\
  length (notes (updateNote now req st).1) = length (notes st) /\
  nextId (updateNote now req st).1 = nextId st /\
  (forall j,
     findIndex (id_is (parseInt (params_id req))) (notes st) <> Some j ->
     notes (updateNote now req st).1 !! j = notes st !! j) /\
  (forall j n,
     notes st !! j = Some n -> Some (id n) <> parseInt (params_id req) ->
     notes (updateNote now req st).1 !! j = Some n).
Proof.
  destruct (updateNote_notes now req st) as (l & <- & Hn & Hid & Hc & Hlen).
  assert (Hother : forall j,
            findIndex (id_is (parseInt (params_id req))) (notes st) <> Some j ->
            notes (updateNote now req st).1 !! j = notes st !! j).
  { intros j Hj. unfold updateNote.
    destruct (findIndex _ (notes st)) as [k|]; [| reflexivity].
    assert (k <> j) by congruence. cbn [fst notes].
    destruct (is_defined (body_title req)), (is_defined (body_content req));
      by rewrite ?list_lookup_alter_ne. }
  repeat split; try assumption.
  intros j n Hj Hne. rewrite Hother; [assumption |].
  intros (x & Hx & Hp)%findIndex_lookup.
  rewrite Hj in Hx. injection Hx as <-.
  destruct (parseInt (params_id req)) as [z|]; simpl in Hp; [| discriminate].
  apply Z.eqb_eq in Hp. congruence.
Qed.

(** ** Order of the array *)

Lemma filter_no_match (k : option Z) (l : list Note) :
  Forall (fun n => id_is k n = false) l ->
  filter (fun n => id_is k n = true) l = [].
Proof.
  induction 1 as [|x l Hx Hl IH]; [reflexivity |].
  rewrite filter_cons_False; [assumption | by rewrite Hx].
Qed.

Lemma filter_by_id (k : option Z) (l : list Note) :
  StronglySorted Z.lt (id <$> l) ->
  (length (filter (fun n => id_is k n = true) l) <= 1)%nat.
Proof.
  induction l as [|x l IH]; [simpl; lia |].
  rewrite fmap_cons. intros [Hx Hl]%StronglySorted_cons.
  rewrite filter_cons. destruct (decide (id_is k x = true)) as [Hk | Hk].
  - rewrite filter_no_match; [simpl; lia |].
    apply (proj1 (Forall_fmap id (Z.lt (id x)) l)) in Hx.
    eapply Forall_impl; [exact Hx |].
    simpl. intros y Hy. destruct k as [z|]; simpl in *; [| done].
    apply Z.eqb_eq in Hk. apply Z.eqb_neq. lia.
  - by apply IH.
Qed.

(** C10. In every state the process can reach from the empty store, the ids
    along the array are strictly ascending, so array order is ascending id
    order; consequently, for any identifier, at most one stored note
    matches it. *)
Theorem notes_sorted_by_id (cs : list Call) :
  StronglySorted Z.lt (id <$> notes (run cs initial).1) /\
  (forall k : option Z,
     (length (filter (fun n => id_is k n = true) (notes (run cs initial).1))
      <= 1)%nat).
Proof.
  destruct (run_wf cs initial wf_initial) as (_ & _ & Hs).
  split; [assumption |]. intros k. by apply filter_by_id.
Qed.

(** ** The statements at the sample run *)

Lemma createNote_validation_text_sample :
  text_or_missing (body_title (body (Str "") (Str "x"))) /\
  text_or_missing (body_content (body (Str "") (Str "x"))) /\
  (validation_error (createNote 7 8 (body (Str "") (Str "x")) sample_store).2 <->
   missing_or_empty (body_title (body (Str "") (Str "x"))) \/
   missing_or_empty (body_content (body (Str "") (Str "x")))) /\
  (validation_error (createNote 7 8 (body (Str "") (Str "x")) sample_store).2 ->
   (createNote 7 8 (body (Str "") (Str "x")) sample_store).1 = sample_store) /\
  (~ validation_error (createNote 7 8 (body (Str "") (Str "x")) sample_store).2 ->
   status (createNote 7 8 (body (Str "") (Str "x")) sample_store).2 = 201) /\
  (forall t c, In (t, c) [(Str "", Str "x"); (Str "x", Str "");
                          (Str "", Str ""); (JUndefined, Str "x")] ->
     validation_error (createNote 7 8 (body t c) sample_store).2 /\
     (createNote 7 8 (body t c) sample_store).1 = sample_store).
Proof.
  split; [right; eexists; reflexivity |].
  split; [right; eexists; reflexivity |].
  apply (createNote_validation_text 7 8 (body (Str "") (Str "x")) sample_store);
    right; eexists; reflexivity.
Defined.

Lemma updateNote_on_match_sample :
  reachable sample_store /\ sample_note ∈ notes sample_store /\
  parseInt (params_id sample_update) = Some (id sample_note) /\
  exists k n',
    notes sample_store !! k = Some sample_note /\
    updateNote 9 sample_update sample_store
    = ({| notes := <[k := n']> (notes sample_store);
          nextId := nextId sample_store |},
       ok_note (Some "Note updated successfully"%string) n') /\
    id n' = id sample_note /\ createdAt n' = createdAt sample_note /\
    updatedAt n' = 9 /\
    (body_title sample_update = JUndefined -> title n' = title sample_note) /\
    (body_title sample_update <> JUndefined ->
     title n' = body_title sample_update) /\
    (body_content sample_update = JUndefined ->
     content n' = content sample_note) /\
    (body_content sample_update <> JUndefined ->
     content n' = body_content sample_update).
Proof.
  split; [exists [sample_create]; reflexivity |].
  split; [vm_compute; left |]. split; [reflexivity |].
  apply (updateNote_on_match 9 sample_update sample_store sample_note);
    [exists [sample_create]; reflexivity | vm_compute; left | reflexivity].
Defined.

Lemma deleteNote_on_match_sample :
  reachable sample_store /\ sample_note ∈ notes sample_store /\
  parseInt (params_id (by_id (js "1"))) = Some (id sample_note) /\
  exists l1 l2,
    notes sample_store = l1 ++ sample_note :: l2 /\
    deleteNote (by_id (js "1")) sample_store
    = ({| notes := l1 ++ l2; nextId := nextId sample_store |},
       ok_note (Some "Note deleted successfully"%string) sample_note) /\
    (sample_note ∉ l1 ++ l2) /\
    getNoteById (by_id (js "1")) (deleteNote (by_id (js "1")) sample_store).1
    = ((deleteNote (by_id (js "1")) sample_store).1, not_found).
Proof.
  split; [exists [sample_create]; reflexivity |].
  split; [vm_compute; left |]. split; [reflexivity |].
  apply (deleteNote_on_match (by_id (js "1")) sample_store sample_note);
    [exists [sample_create]; reflexivity | vm_compute; left | reflexivity].
Defined.

Lemma createNote_then_getNoteById_sample :
  reachable sample_store /\
  ToBoolean (body_title (body (Str "Note 2") (Str "Content 2"))) = true /\
  ToBoolean (body_content (body (Str "Note 2") (Str "Content 2"))) = true /\
  exists n st',
    n = mkNote (nextId sample_store) (Str "Note 2") (Str "Content 2") 7 8 /\
    st' = {| notes := notes sample_store ++ [n];
             nextId := nextId sample_store + 1 |} /\
    createNote 7 8 (body (Str "Note 2") (Str "Content 2")) sample_store
    = (st', {| status := 201; success := true;
               message := Some "Note created successfully"%string;
               count := None; data := Some (OneNote n) |}) /\
    (forall req', parseInt (params_id req') = Some (id n) ->
       getNoteById req' st' = (st', ok_note None n)) /\
    getNoteById (by_id (decimal (id n))) st' = (st', ok_note None n).
Proof.
  split; [exists [sample_create]; reflexivity |].
  split; [reflexivity |]. split; [reflexivity |].
  apply (createNote_then_getNoteById 7 8
           (body (Str "Note 2") (Str "Content 2")) sample_store);
    [exists [sample_create]; reflexivity | reflexivity | reflexivity].
Defined.

Lemma createdAt_le_updatedAt_sample :
  StronglySorted Z.le
    (clock [sample_create; UpdateNote 7 sample_update] initial) /\
  Forall (fun n => createdAt n <= updatedAt n)
         (notes (run [sample_create; UpdateNote 7 sample_update] initial).1).
Proof.
  assert (H : StronglySorted Z.le
                (clock [sample_create; UpdateNote 7 sample_update] initial))
    by (vm_compute; repeat constructor; discriminate).
  split; [exact H |].
  apply (createdAt_le_updatedAt [sample_create; UpdateNote 7 sample_update] H).
Defined.

(** ** Identifiers that were never assigned *)

Lemma handle_ids (c : Call) (st : Store) :
  Forall (fun n => id n ∈ id <$> notes st \/
                   assigned_id (handle c st).2 = Some (id n))
         (notes (handle c st).1).
Proof.
  assert (Hsame : forall l : list Note,
            id <$> l = id <$> notes st ->
            forall r, Forall (fun n => id n ∈ id <$> notes st \/ r = Some (id n)) l).
  { intros l Hl r. apply Forall_forall. intros n Hn. left.
    rewrite <- Hl. by apply list_elem_of_fmap_2. }
  destruct c as [t1 t2 req|req|req|t req|req]; simpl.
  - unfold createNote. destruct (negb _ || negb _); simpl; [by apply Hsame |].
    apply Forall_app_2; [by apply Hsame |].
    constructor; [right; reflexivity | constructor].
  - by apply Hsame.
  - unfold getNoteById. destruct (find _ _); by apply Hsame.
  - destruct (updateNote_notes t req st) as (l & -> & _ & Hid & _ & _).
    by apply Hsame.
  - unfold deleteNote. destruct (findIndex _ _) as [k|]; simpl; [| by apply Hsame].
    apply Forall_delete. by apply Hsame.
Qed.

Lemma run_ids (cs : list Call) :
  forall st,
    Forall (fun n => id n ∈ id <$> notes st \/
                     id n ∈ assigned_ids (run cs st).2)
           (notes (run cs st).1).
Proof.
  induction cs as [|c cs IH]; intros st.
  - simpl. apply Forall_forall. intros n Hn. left. by apply list_elem_of_fmap_2.
  - rewrite run_cons. cbn [fst snd].
    eapply Forall_impl; [apply IH |]. simpl. intros n [Hn | Hn].
    + apply list_elem_of_fmap in Hn as (m & Hid & Hm).
      pose proof (handle_ids c st) as Hc. rewrite Forall_forall in Hc.
      destruct (Hc m Hm) as [Hold | Hnew]; rewrite Hid.
      * by left.
      * right. unfold assigned_ids. cbn [omap list_omap]. rewrite Hnew. left.
    + right. unfold assigned_ids in *. cbn [omap list_omap].
      destruct (assigned_id (handle c st).2); [by right | assumption].
Qed.

(** An identifier read as an integer that no [createNote] has handed out
    so far (99999 on a fresh process, say) is answered "Note not found". *)
Theorem getNoteById_unassigned (cs : list Call) (req : Request) (z : Z) :
  parseInt (params_id req) = Some z ->
  z ∉ assigned_ids (run cs initial).2 ->
  getNoteById req (run cs initial).1 = ((run cs initial).1, not_found).
Proof.
  intros Hp Hz.
  pose proof (handlers_by_index 0 req (run cs initial).1) as H.
  destruct (findIndex _ _) as [k|] eqn:Hfind; [| by destruct H].
  exfalso. apply findIndex_lookup in Hfind as (n & Hn & Hid).
  rewrite Hp in Hid. simpl in Hid. apply Z.eqb_eq in Hid.
  pose proof (run_ids cs initial) as Hall. rewrite Forall_forall in Hall.
  destruct (Hall n (list_elem_of_lookup_2 _ _ _ Hn)) as [Hin | Hin].
  - simpl in Hin. inversion Hin.
  - apply Hz. by rewrite <- Hid.
Qed.

Lemma getNoteById_unassigned_sample :
  parseInt (params_id (by_id (js "99999"))) = Some 99999 /\
  (99999 ∉ assigned_ids (run [sample_create] initial).2) /\
  getNoteById (by_id (js "99999")) (run [sample_create] initial).1
  = ((run [sample_create] initial).1, not_found).
Proof.
  assert (H : 99999 ∉ assigned_ids (run [sample_create] initial).2).
  { vm_compute. intros Hin. inversion Hin as [|? ? ? Hnil]; inversion Hnil. }
  split; [reflexivity |]. split; [exact H |].
  apply (getNoteById_unassigned [sample_create] (by_id (js "99999")) 99999);
    [reflexivity | exact H].
Defined.

(** The full cycle of the integration test: create, list, get, update,
    delete, get again.  The statuses are 201, 200, 200, 200, 200 and 404,
    the update carries both new fields, the delete carries the note as it
    was before the delete, and the store ends empty with the counter at 2. *)
Example full_crud_cycle :
  let create := CreateNote 1 1 (body (Str "CRUD Test") (Str "Testing full cycle")) in
  let update := UpdateNote 2 {| params_id := decimal 1;
                                body_title := Str "Updated CRUD Test";
                                body_content := Str "Updated content" |} in
  let final := mkNote 1 (Str "Updated CRUD Test") (Str "Updated content") 1 2 in
  run [create; GetAllNotes (by_id []); GetNoteById (by_id (decimal 1)); update;
       DeleteNote (by_id (decimal 1)); GetNoteById (by_id (decimal 1))] initial
  = ({| notes := []; nextId := 2 |},
     [ {| status := 201; success := true;
          message := Some "Note created successfully"%string; count := None;
          data := Some (OneNote (mkNote 1 (Str "CRUD Test")
                                   (Str "Testing full cycle") 1 1)) |};
       {| status := 200; success := true; message := None; count := Some 1;
          data := Some (AllNotes [mkNote 1 (Str "CRUD Test")
                                    (Str "Testing full cycle") 1 1]) |};
       ok_note None (mkNote 1 (Str "CRUD Test") (Str "Testing full cycle") 1 1);
       ok_note (Some "Note updated successfully"%string) final;
       ok_note (Some "Note deleted successfully"%string) final;
       not_found ]).
Proof. reflexivity. Qed.

(** ** Counting the notes *)

Lemma run_counter (cs : list Call) :
  forall st,
    assigned_ids (run cs st).2
    = seqZ (nextId st) (nextId (run cs st).1 - nextId st) /\
    nextId st <= nextId (run cs st).1.
Proof.
  induction cs as [|c cs IH]; intros st.
  - simpl. rewrite Z.sub_diag. split; [reflexivity | lia].
  - rewrite run_cons. cbn [fst snd].
    destruct (IH (handle c st).1) as [Hids Hle].
    unfold assigned_ids in *. cbn [omap list_omap].
    destruct (handle_assigned c st) as [[-> Hn] | [-> Hn]]; rewrite Hn in *.
    + by split.
    + split; [| lia]. rewrite Hids, (seqZ_cons (nextId st)) by lia.
      do 2 f_equal; lia.
Qed.

(** The ids handed out by [createNote] since the start of the process are
    1, 2, 3, ... without a gap: a rejected [createNote], a read, an update
    or a delete consumes no id, and the counter is always one more than the
    number of notes created so far. *)
Theorem assigned_ids_consecutive (cs : list Call) :
  assigned_ids (run cs initial).2
  = seqZ 1 (Z.of_nat (length (assigned_ids (run cs initial).2))) /\
  nextId (run cs initial).1
  = 1 + Z.of_nat (length (assigned_ids (run cs initial).2)).
Proof.
  destruct (run_counter cs initial) as [Hids Hle]. simpl in Hids, Hle.
  assert (Hlen : Z.of_nat (length (assigned_ids (run cs initial).2))
                 = nextId (run cs initial).1 - 1)
    by (rewrite Hids at 1; rewrite length_seqZ; lia).
  split; [by rewrite Hlen | lia].
Qed.

Lemma handle_size (c : Call) (st : Store) :
  (length (notes (handle c st).1)
   + (if is_deleted (handle c st).2 then 1 else 0)
   = length (notes st)
     + match assigned_id (handle c st).2 with Some _ => 1 | None => 0 end)%nat.
Proof.
  destruct c as [t1 t2 req|req|req|t req|req]; simpl.
  - unfold createNote. destruct (negb _ || negb _); simpl; [lia |].
    rewrite length_app. simpl. lia.
  - lia.
  - unfold getNoteById. destruct (find _ _); simpl; lia.
  - destruct (updateNote_notes t req st) as (l & -> & _ & _ & _ & ->).
    unfold updateNote. destruct (findIndex _ _); simpl; lia.
  - unfold deleteNote. destruct (findIndex _ _) as [k|] eqn:Hfind; simpl; [| lia].
    apply findIndex_lookup in Hfind as (x & Hx & _).
    rewrite length_delete by eauto.
    pose proof (lookup_lt_Some _ _ _ Hx). lia.
Qed.

Lemma run_size (cs : list Call) :
  forall st,
    (length (notes (run cs st).1) + deleted_count (run cs st).2
     = length (notes st) + length (assigned_ids (run cs st).2))%nat.
Proof.
  induction cs as [|c cs IH]; intros st.
  - simpl. unfold deleted_count. simpl. lia.
  - rewrite run_cons. cbn [fst snd].
    specialize (IH (handle c st).1). pose proof (handle_size c st) as Hc.
    unfold deleted_count, assigned_ids in *.
    cbn [omap list_omap]. rewrite filter_cons.
    destruct (is_deleted (handle c st).2) eqn:Hd;
      destruct (assigned_id (handle c st).2) eqn:Ha;
      destruct (decide _); try congruence; simpl in *; lia.
Qed.

(** After any sequence of calls from the start of the process, the number
    of stored notes, which is the [count] that [getAllNotes] reports, is the
    number of notes created minus the number of notes deleted: an update, a
    read and a rejected call never change it. *)
Theorem count_is_created_minus_deleted (cs : list Call) (req : Request) :
  (length (notes (run cs initial).1) + deleted_count (run cs initial).2
   = length (assigned_ids (run cs initial).2))%nat /\
  count (getAllNotes req (run cs initial).1).2
  = Some (Z.of_nat (length (assigned_ids (run cs initial).2))
          - Z.of_nat (deleted_count (run cs initial).2)).
Proof.
  pose proof (run_size cs initial) as H. simpl in H.
  split; [assumption |]. simpl. f_equal. lia.
Qed.

(** ** The shape of the answers *)

(** Whatever the call and the store: the status is 200, 201, 400 or 404 and
    never 500; [success] is true exactly on 200 and 201; an answer with
    [success] false leaves the store exactly as it was, carries a message
    and no data; an answer with [success] true carries data; [count] is
    present exactly in the answer of [getAllNotes]; the two reads never
    change the store. *)
Theorem answer_shape (c : Call) (st : Store) :
  (status (handle c st).2 = 200 \/ status (handle c st).2 = 201 \/
   status (handle c st).2 = 400 \/ status (handle c st).2 = 404) /\
  (success (handle c st).2 = true <->
   status (handle c st).2 = 200 \/ status (handle c st).2 = 201) /\
  (success (handle c st).2 = false ->
   (handle c st).1 = st /\ data (handle c st).2 = None /\
   is_Some (message (handle c st).2)) /\
  (success (handle c st).2 = true -> is_Some (data (handle c st).2)) /\
  (is_Some (count (handle c st).2) <-> exists req, c = GetAllNotes req) /\
  (forall req, c = GetAllNotes req \/ c = GetNoteById req ->
     (handle c st).1 = st).
Proof.
  assert (Hno : forall A (x : option A), x = None -> ~ is_Some x)
    by (intros A x -> [y Hy]; discriminate).
  destruct c as [t1 t2 req|req|req|t req|req]; simpl.
  - unfold createNote. destruct (negb _ || negb _); simpl;
      repeat split; eauto; try discriminate; try (intros [? | ?]; discriminate);
      try (intros [? [=]]); try (intros ? [[=] | [=]]);
      try (intros [? ?]; discriminate).
  - repeat split; eauto; try discriminate.
  - pose proof (handlers_by_index 0 req st) as H.
    unfold getNoteById in *. rewrite find_findIndex in *.
    destruct (findIndex _ _) as [k|] eqn:Hfind; simpl in *.
    + apply findIndex_lookup in Hfind as (x & -> & _). simpl.
      repeat split; eauto; try discriminate;
        try (intros [? [=]]); try (intros [? ?]; discriminate).
    + repeat split; eauto; try discriminate;
        try (intros [? | ?]; discriminate);
        try (intros [? [=]]); try (intros [? ?]; discriminate).
  - destruct (findIndex (id_is (parseInt (params_id req))) (notes st))
      as [k|] eqn:Hfind.
    + destruct (findIndex_lookup _ _ _ Hfind) as (x & Hx & _).
      rewrite (updateNote_found t req st k x Hfind Hx). simpl.
      repeat split; eauto; try discriminate;
        try (intros [? [=]]); try (intros ? [[=] | [=]]);
        try (intros [? ?]; discriminate).
    + unfold updateNote. rewrite Hfind. simpl.
      repeat split; eauto; try discriminate;
        try (intros [? | ?]; discriminate);
        try (intros [? [=]]); try (intros ? [[=] | [=]]);
        try (intros [? ?]; discriminate).
  - unfold deleteNote.
    destruct (findIndex (id_is (parseInt (params_id req))) (notes st))
      as [k|] eqn:Hfind; simpl.
    + destruct (findIndex_lookup _ _ _ Hfind) as (x & -> & _). simpl.
      repeat split; eauto; try discriminate;
        try (intros [? [=]]); try (intros ? [[=] | [=]]);
        try (intros [? ?]; discriminate).
    + repeat split; eauto; try discriminate;
        try (intros [? | ?]; discriminate);
        try (intros [? [=]]); try (intros ? [[=] | [=]]);
        try (intros [? ?]; discriminate).
Qed.

(** ** Reading back what is stored *)

Lemma findIndex_ids (k : option Z) (l1 : list Note) :
  forall l2, id <$> l1 = id <$> l2 ->
  findIndex (id_is k) l1 = findIndex (id_is k) l2.
Proof.
  induction l1 as [|x l1 IH]; intros [|y l2] H; try discriminate; [reflexivity |].
  rewrite !fmap_cons in H. injection H as Hxy Hl. simpl.
  replace (id_is k y) with (id_is k x) by (destruct k; simpl; by rewrite ?Hxy).
  by rewrite (IH l2 Hl).
Qed.

Lemma getNoteById_found (req : Request) (st : Store) (k : nat) (n : Note) :
  findIndex (id_is (parseInt (params_id req))) (notes st) = Some k ->
  notes st !! k = Some n ->
  getNoteById req st = (st, ok_note None n).
Proof.
  intros Hfind Hk. unfold getNoteById. rewrite find_findIndex, Hfind. simpl.
  by rewrite Hk.
Qed.

Lemma getNoteById_stored_wf (req : Request) (st : Store) (n : Note) :
  wf st -> n ∈ notes st -> parseInt (params_id req) = Some (id n) ->
  getNoteById req st = (st, ok_note None n).
Proof.
  intros (_ & _ & Hs) Hn Hp.
  apply list_elem_of_lookup in Hn as [k Hk].
  apply (getNoteById_found req st k n); [| assumption].
  rewrite Hp. by apply findIndex_by_id.
Qed.

(** In a state the process can be in, the notes [getAllNotes] lists are
    exactly the notes [getNoteById] can return: every listed note is returned
    for the decimal text of its id (and for any identifier read as its id),
    and a note returned by [getNoteById] is one of the listed notes, the one
    whose id the identifier reads as. *)
Theorem listed_iff_retrievable (st : Store) (n : Note) :
  reachable st ->
  (n ∈ notes st ->
   getNoteById (by_id (decimal (id n))) st = (st, ok_note None n) /\
   forall req, parseInt (params_id req) = Some (id n) ->
               getNoteById req st = (st, ok_note None n)) /\
  (forall req, data (getNoteById req st).2 = Some (OneNote n) ->
     n ∈ notes st /\ parseInt (params_id req) = Some (id n)).
Proof.
  intros Hr. pose proof (reachable_wf st Hr) as Hwf. split.
  - intros Hn. split.
    + apply getNoteById_stored_wf; [assumption.. |]. simpl.
      apply parseInt_decimal. destruct Hwf as (_ & Hids & _).
      rewrite Forall_forall in Hids. specialize (Hids n Hn). lia.
    + intros req Hp. by apply getNoteById_stored_wf.
  - intros req. unfold getNoteById. rewrite find_findIndex.
    destruct (findIndex _ _) as [k|] eqn:Hfind; simpl; [| discriminate].
    apply findIndex_lookup in Hfind as (x & Hx & Hp). rewrite Hx. simpl.
    intros [= <-]. split; [by eapply list_elem_of_lookup_2 |].
    destruct (parseInt (params_id req)) as [z|]; simpl in Hp; [| discriminate].
    apply Z.eqb_eq in Hp. by rewrite Hp.
Qed.

Lemma listed_iff_retrievable_sample :
  reachable sample_store /\
  (sample_note ∈ notes sample_store ->
   getNoteById (by_id (decimal (id sample_note))) sample_store
   = (sample_store, ok_note None sample_note) /\
   forall req, parseInt (params_id req) = Some (id sample_note) ->
               getNoteById req sample_store
               = (sample_store, ok_note None sample_note)) /\
  (forall req,
     data (getNoteById req sample_store).2 = Some (OneNote sample_note) ->
     sample_note ∈ notes sample_store /\
     parseInt (params_id req) = Some (id sample_note)).
Proof.
  split; [exists [sample_create]; reflexivity |].
  apply (listed_iff_retrievable sample_store sample_note).
  exists [sample_create]; reflexivity.
Defined.

(** For a stored note named by the request, a [getNoteById] that follows
    [updateNote] with an identifier read as the same id returns the note as
    the update left it: the fields of the body that were not [undefined],
    the other fields as before, and the new [updatedAt]. *)
Theorem updateNote_then_getNoteById (now : Timestamp) (req req' : Request)
    (st : Store) (n : Note) :
  reachable st -> n ∈ notes st ->
  parseInt (params_id req) = Some (id n) ->
  parseInt (params_id req') = Some (id n) ->
  getNoteById req' (updateNote now req st).1
  = ((updateNote now req st).1, ok_note None (updated now req n)).
Proof.
  intros Hr Hn Hp Hp'.
  destruct (stored_note_found st n _ Hr Hn Hp) as (l1 & l2 & Hl & Hfind).
  assert (Hk : notes st !! length l1 = Some n)
    by (rewrite Hl; by apply list_lookup_middle).
  rewrite (updateNote_found now req st _ n Hfind Hk). cbn [fst].
  apply (getNoteById_found _ _ (length l1)); cbn [notes].
  - rewrite Hp', <- Hp, <- Hfind. apply findIndex_ids.
    rewrite list_fmap_insert. simpl. apply list_insert_id.
    by rewrite list_lookup_fmap, Hk.
  - apply list_lookup_insert_eq. by eapply lookup_lt_Some.
Qed.

Lemma updateNote_then_getNoteById_sample :
  reachable sample_store /\ sample_note ∈ notes sample_store /\
  parseInt (params_id sample_update) = Some (id sample_note) /\
  parseInt (params_id (by_id (js " 1.0"))) = Some (id sample_note) /\
  getNoteById (by_id (js " 1.0")) (updateNote 9 sample_update sample_store).1
  = ((updateNote 9 sample_update sample_store).1,
     ok_note None (updated 9 sample_update sample_note)).
Proof.
  split; [exists [sample_create]; reflexivity |].
  split; [vm_compute; left |]. split; [reflexivity |]. split; [reflexivity |].
  apply (updateNote_then_getNoteById 9 sample_update (by_id (js " 1.0"))
           sample_store sample_note);
    [exists [sample_create]; reflexivity | vm_compute; left
    | reflexivity | reflexivity].
Defined.

(** ** Two updates in a row *)

Lemma updated_merge (now1 now2 : Timestamp) (req1 req2 : Request) (n : Note) :
  updated now2 req2 (updated now1 req1 n) = updated now2 (merge req1 req2) n.
Proof.
  unfold updated, merge; simpl.
  destruct (is_defined (body_title req2)) eqn:Ht2,
    (is_defined (body_content req2)) eqn:Hc2,
    (is_defined (body_title req1)) eqn:Ht1,
    (is_defined (body_content req1)) eqn:Hc1;
    rewrite ?Ht2, ?Hc2, ?Ht1, ?Hc1; reflexivity.
Qed.

(** Two [updateNote] calls in a row whose identifiers read the same act as
    the single second call with the two bodies merged (a field of the second
    body wins when it is not [undefined]): same store, same answer.  The
    [updatedAt] of the first call is overwritten and lost. *)
Theorem updateNote_twice (now1 now2 : Timestamp) (req1 req2 : Request)
    (st : Store) :
  parseInt (params_id req1) = parseInt (params_id req2) ->
  updateNote now2 req2 (updateNote now1 req1 st).1
  = updateNote now2 (merge req1 req2) st.
Proof.
  intros Hp.
  destruct (findIndex (id_is (parseInt (params_id req1))) (notes st))
    as [k|] eqn:Hfind.
  - destruct (findIndex_lookup _ _ _ Hfind) as (x & Hx & _).
    rewrite (updateNote_found now1 req1 st k x Hfind Hx). cbn [fst].
    pose proof (lookup_lt_Some _ _ _ Hx) as Hlt.
    rewrite (updateNote_found now2 req2 _ k (updated now1 req1 x)); cbn [notes nextId].
    + rewrite (updateNote_found now2 (merge req1 req2) st k x);
        [| simpl; by rewrite <- Hp | assumption].
      by rewrite list_insert_insert_eq, updated_merge.
    + rewrite <- Hp, <- Hfind. apply findIndex_ids.
      rewrite list_fmap_insert. simpl. apply list_insert_id.
      by rewrite list_lookup_fmap, Hx.
    + by apply list_lookup_insert_eq.
  - unfold updateNote at 2. rewrite Hfind. cbn [fst].
    unfold updateNote. simpl. by rewrite <- Hp, Hfind.
Qed.

Lemma updateNote_twice_sample :
  parseInt (params_id sample_update) = parseInt (params_id (by_id (js "1"))) /\
  updateNote 9 (by_id (js "1")) (updateNote 8 sample_update sample_store).1
  = updateNote 9 (merge sample_update (by_id (js "1"))) sample_store.
Proof.
  split; [reflexivity |].
  apply (updateNote_twice 8 9 sample_update (by_id (js "1")) sample_store).
  reflexivity.
Defined.

(** ** Identifiers that name no note *)

Lemma not_found_without_id (now : Timestamp) (req : Request) (st : Store)
    (z : Z) :
  parseInt (params_id req) = Some z ->
  Forall (fun n => id n <> z) (notes st) ->
  getNoteById req st = (st, not_found) /\
  updateNote now req st = (st, not_found) /\
  deleteNote req st = (st, not_found).
Proof.
  intros Hp Hno. pose proof (handlers_by_index now req st) as H.
  replace (findIndex _ _) with (@None nat) in H; [assumption |].
  symmetry. apply no_match_spec. rewrite Hp.
  eapply Forall_impl; [exact Hno |]. simpl. intros n Hn. congruence.
Qed.

(** In a state the process can be in, an identifier read as an integer
    below 1, or at or above the counter (so not handed out yet, like 99999
    while fewer than 99999 notes were ever created), is answered "Note not
    found" by [getNoteById], [updateNote] and [deleteNote] alike, and the
    store stays as it was. *)
Theorem identifier_out_of_range (now : Timestamp) (req : Request) (st : Store)
    (z : Z) :
  reachable st -> parseInt (params_id req) = Some z ->
  z < 1 \/ nextId st <= z ->
  getNoteById req st = (st, not_found) /\
  updateNote now req st = (st, not_found) /\
  deleteNote req st = (st, not_found).
Proof.
  intros (_ & Hids & _)%reachable_wf Hp Hz.
  apply (not_found_without_id now req st z Hp).
  eapply Forall_impl; [exact Hids |]. simpl. intros n Hn. lia.
Qed.

Lemma identifier_out_of_range_sample :
  reachable sample_store /\
  parseInt (params_id (by_id (js "99999"))) = Some 99999 /\
  (99999 < 1 \/ nextId sample_store <= 99999) /\
  getNoteById (by_id (js "99999")) sample_store = (sample_store, not_found) /\
  updateNote 9 (by_id (js "99999")) sample_store = (sample_store, not_found) /\
  deleteNote (by_id (js "99999")) sample_store = (sample_store, not_found).
Proof.
  assert (H : 99999 < 1 \/ nextId sample_store <= 99999)
    by (right; vm_compute; discriminate).
  split; [exists [sample_create]; reflexivity |]. split; [reflexivity |].
  split; [exact H |].
  apply (identifier_out_of_range 9 (by_id (js "99999")) sample_store 99999);
    [exists [sample_create]; reflexivity | reflexivity | exact H].
Defined.

Lemma delete_removes_id (l : list Note) (k : nat) (z : Z) :
  StronglySorted Z.lt (id <$> l) ->
  findIndex (id_is (Some z)) l = Some k ->
  Forall (fun n => id n <> z) (delete k l).
Proof.
  intros Hs (l1 & x & l2 & -> & <- & Hx & _)%findIndex_Some.
  rewrite delete_middle. simpl in Hx. apply Z.eqb_eq in Hx. subst z.
  rewrite fmap_app, fmap_cons in Hs.
  apply StronglySorted_app in Hs as (Hlt & _ & Htail).
  apply StronglySorted_cons in Htail as [Hgt _].
  apply Forall_app_2; apply Forall_forall; intros y Hy.
  - enough (id y < id x) by lia.
    apply Hlt; [by apply list_elem_of_fmap_2 | left].
  - rewrite Forall_forall in Hgt.
    enough (id x < id y) by lia. by apply Hgt, list_elem_of_fmap_2.
Qed.

Lemma handle_gone (c : Call) (st : Store) (z : Z) :
  z < nextId st -> Forall (fun n => id n <> z) (notes st) ->
  z < nextId (handle c st).1 /\
  Forall (fun n => id n <> z) (notes (handle c st).1).
Proof.
  intros Hz Hno. split.
  - destruct (handle_assigned c st) as [[_ ->] | [_ ->]]; lia.
  - destruct c as [t1 t2 req|req|req|t req|req]; simpl.
    + unfold createNote. destruct (negb _ || negb _); simpl; [assumption |].
      apply Forall_app_2; [assumption |]. repeat constructor. simpl. lia.
    + assumption.
    + unfold getNoteById. by destruct (find _ _).
    + destruct (updateNote_notes t req st) as (l & -> & _ & Hid & _ & _).
      assert (Hz' : Forall (fun i => i <> z) (id <$> notes st))
        by (apply (proj2 (Forall_fmap id (fun i => i <> z) (notes st))), Hno).
      rewrite <- Hid in Hz'.
      exact (proj1 (Forall_fmap id (fun i => i <> z) l) Hz').
    + unfold deleteNote. destruct (findIndex _ _); simpl; [| assumption].
      by apply Forall_delete.
Qed.

Lemma run_gone (cs : list Call) (z : Z) :
  forall st,
    z < nextId st -> Forall (fun n => id n <> z) (notes st) ->
    Forall (fun n => id n <> z) (notes (run cs st).1).
Proof.
  induction cs as [|c cs IH]; intros st Hz Hno; [assumption |].
  rewrite run_cons. cbn [fst].
  destruct (handle_gone c st z Hz Hno) as [Hz' Hno']. by apply IH.
Qed.

(** A deleted note never comes back: once [deleteNote] has answered 200 for
    an identifier, then after any further calls whatsoever every identifier
    read as the same integer is answered "Note not found" by [getNoteById],
    [updateNote] and [deleteNote]; no later [createNote] gives the id to
    another note. *)
Theorem deleted_note_never_returns (now : Timestamp) (req req' : Request)
    (st : Store) (cs : list Call) :
  reachable st ->
  status (deleteNote req st).2 = 200 ->
  parseInt (params_id req') = parseInt (params_id req) ->
  getNoteById req' (run cs (deleteNote req st).1).1
  = ((run cs (deleteNote req st).1).1, not_found) /\
  updateNote now req' (run cs (deleteNote req st).1).1
  = ((run cs (deleteNote req st).1).1, not_found) /\
  deleteNote req' (run cs (deleteNote req st).1).1
  = ((run cs (deleteNote req st).1).1, not_found).
Proof.
  intros (_ & Hids & Hs)%reachable_wf Hst Hp.
  unfold deleteNote in Hst |- *.
  destruct (findIndex (id_is (parseInt (params_id req))) (notes st))
    as [k|] eqn:Hfind; [| discriminate].
  cbn [fst]. fold (deleteNote req').
  destruct (findIndex_lookup _ _ _ Hfind) as (x & Hx & Hid).
  destruct (parseInt (params_id req)) as [z|]; simpl in Hid; [| discriminate].
  apply Z.eqb_eq in Hid.
  apply (not_found_without_id now req' _ z Hp).
  apply run_gone; cbn [notes nextId].
  - rewrite Forall_forall in Hids.
    specialize (Hids x (list_elem_of_lookup_2 _ _ _ Hx)). lia.
  - by apply delete_removes_id.
Qed.

Lemma deleted_note_never_returns_sample :
  reachable sample_store /\
  status (deleteNote (by_id (js "1")) sample_store).2 = 200 /\
  parseInt (params_id (by_id (js "1"))) = parseInt (params_id (by_id (js "1"))) /\
  getNoteById (by_id (js "1"))
    (run [sample_create] (deleteNote (by_id (js "1")) sample_store).1).1
  = ((run [sample_create] (deleteNote (by_id (js "1")) sample_store).1).1,
     not_found) /\
  updateNote 9 (by_id (js "1"))
    (run [sample_create] (deleteNote (by_id (js "1")) sample_store).1).1
  = ((run [sample_create] (deleteNote (by_id (js "1")) sample_store).1).1,
     not_found) /\
  deleteNote (by_id (js "1"))
    (run [sample_create] (deleteNote (by_id (js "1")) sample_store).1).1
  = ((run [sample_create] (deleteNote (by_id (js "1")) sample_store).1).1,
     not_found).
Proof.
  split; [exists [sample_create]; reflexivity |]. split; [reflexivity |].
  split; [reflexivity |].
  apply (deleted_note_never_returns 9 (by_id (js "1")) (by_id (js "1"))
           sample_store [sample_create]);
    [exists [sample_create]; reflexivity | reflexivity | reflexivity].
Defined.

(** ** Notes a call does not address *)

Lemma unique_by_id (l : list Note) (n m : Note) :
  StronglySorted Z.lt (id <$> l) -> n ∈ l -> m ∈ l -> id n = id m -> n = m.
Proof.
  intros Hs [i Hi]%list_elem_of_lookup [j Hj]%list_elem_of_lookup Hid.
  pose proof (findIndex_by_id _ _ _ Hs Hi) as Hfi.
  pose proof (findIndex_by_id _ _ _ Hs Hj) as Hfj.
  rewrite Hid, Hfj in Hfi. injection Hfi as <-. congruence.
Qed.

Lemma handle_keeps_note (c : Call) (st : Store) (m : Note) :
  m ∈ notes st -> ~ addresses c (id m) -> m ∈ notes (handle c st).1.
Proof.
  intros Hm Hc. destruct c as [t1 t2 req|req|req|t req|req]; simpl in *.
  - unfold createNote. destruct (negb _ || negb _); simpl; [assumption |].
    apply elem_of_app. by left.
  - assumption.
  - unfold getNoteById. by destruct (find _ _).
  - apply list_elem_of_lookup in Hm as [j Hj].
    apply (list_elem_of_lookup_2 _ j). unfold updateNote.
    destruct (findIndex _ (notes st)) as [k|] eqn:Hfind; [| assumption].
    assert (k <> j).
    { intros ->. destruct (findIndex_lookup _ _ _ Hfind) as (x & Hx & Hid).
      rewrite Hj in Hx. injection Hx as <-.
      destruct (parseInt (params_id req)) as [z|]; simpl in Hid; [| discriminate].
      apply Z.eqb_eq in Hid. apply Hc. by rewrite Hid. }
    cbn [fst notes].
    destruct (is_defined (body_title req)), (is_defined (body_content req));
      by rewrite ?list_lookup_alter_ne.
  - unfold deleteNote.
    destruct (findIndex _ (notes st)) as [k|] eqn:Hfind; [| assumption].
    cbn [fst notes].
    apply findIndex_Some in Hfind as (l1 & x & l2 & Hl & <- & Hid & _).
    rewrite Hl in Hm |- *. rewrite delete_middle.
    apply elem_of_app in Hm as [Hm | Hm]; [apply elem_of_app; by left |].
    apply elem_of_cons in Hm as [-> | Hm]; [| apply elem_of_app; by right].
    exfalso. destruct (parseInt (params_id req)) as [z|]; simpl in Hid;
      [| discriminate].
    apply Z.eqb_eq in Hid. apply Hc. by rewrite Hid.
Qed.

(** A call leaves alone every note it does not address: in a state the
    process can be in, a stored note stays in the store, whole, and
    [getNoteById] keeps returning it, across any call other than an
    [updateNote] or a [deleteNote] whose identifier reads as that note's
    id. *)
Theorem other_notes_untouched (c : Call) (st : Store) (m : Note) :
  reachable st -> m ∈ notes st -> ~ addresses c (id m) ->
  m ∈ notes (handle c st).1 /\
  forall req, parseInt (params_id req) = Some (id m) ->
    getNoteById req (handle c st).1 = ((handle c st).1, ok_note None m).
Proof.
  intros Hr%reachable_wf Hm Hc.
  pose proof (handle_keeps_note c st m Hm Hc) as Hm'.
  split; [assumption |]. intros req Hp.
  apply getNoteById_stored_wf; [by apply handle_wf | assumption..].
Qed.

Lemma other_notes_untouched_sample :
  reachable sample_store /\ sample_note ∈ notes sample_store /\
  ~ addresses (DeleteNote (by_id (js "2"))) (id sample_note) /\
  sample_note ∈ notes (handle (DeleteNote (by_id (js "2"))) sample_store).1 /\
  forall req, parseInt (params_id req) = Some (id sample_note) ->
    getNoteById req (handle (DeleteNote (by_id (js "2"))) sample_store).1
    = ((handle (DeleteNote (by_id (js "2"))) sample_store).1,
       ok_note None sample_note).
Proof.
  assert (H : ~ addresses (DeleteNote (by_id (js "2"))) (id sample_note))
    by (vm_compute; discriminate).
  split; [exists [sample_create]; reflexivity |].
  split; [vm_compute; left |]. split; [exact H |].
  apply (other_notes_untouched (DeleteNote (by_id (js "2"))) sample_store
           sample_note);
    [exists [sample_create]; reflexivity | vm_compute; left | exact H].
Defined.

(** ** What never changes in the life of a note *)

Lemma handle_origin (c : Call) (st : Store) :
  Forall (fun n' =>
            (exists n, n ∈ notes st /\ id n = id n' /\
                       createdAt n = createdAt n') \/
            id n' = nextId st)
         (notes (handle c st).1).
Proof.
  assert (Hsame : Forall (fun n' =>
            (exists n, n ∈ notes st /\ id n = id n' /\
                       createdAt n = createdAt n') \/
            id n' = nextId st) (notes st)).
  { apply Forall_forall. intros n Hn. left. by exists n. }
  destruct c as [t1 t2 req|req|req|t req|req]; simpl.
  - unfold createNote. destruct (negb _ || negb _); simpl; [assumption |].
    apply Forall_app_2; [assumption |].
    constructor; [by right | constructor].
  - assumption.
  - unfold getNoteById. by destruct (find _ _).
  - destruct (updateNote_notes t req st) as (l & -> & _ & Hid & Hc & _).
    apply Forall_forall. intros n' [j Hj]%list_elem_of_lookup. left.
    assert (Hi : (id <$> notes st) !! j = Some (id n'))
      by (by rewrite <- Hid, list_lookup_fmap, Hj).
    assert (Ht : (createdAt <$> notes st) !! j = Some (createdAt n'))
      by (by rewrite <- Hc, list_lookup_fmap, Hj).
    rewrite list_lookup_fmap in Hi, Ht.
    destruct (notes st !! j) as [n|] eqn:Hn; [| discriminate].
    exists n. simpl in Hi, Ht. split; [by eapply list_elem_of_lookup_2 |].
    split; congruence.
  - unfold deleteNote. destruct (findIndex _ _); simpl; [| assumption].
    by apply Forall_delete.
Qed.

Lemma run_origin (cs : list Call) :
  forall st,
    Forall (fun n' =>
              (exists n, n ∈ notes st /\ id n = id n' /\
                         createdAt n = createdAt n') \/
              nextId st <= id n')
           (notes (run cs st).1).
Proof.
  induction cs as [|c cs IH]; intros st.
  - simpl. apply Forall_forall. intros n Hn. left. by exists n.
  - rewrite run_cons. cbn [fst].
    eapply Forall_impl; [apply IH |]. simpl.
    intros n' [(n1 & Hn1 & Hid1 & Hc1) | Hnew].
    + pose proof (handle_origin c st) as Hc. rewrite Forall_forall in Hc.
      destruct (Hc n1 Hn1) as [(n & Hn & Hid & Hcr) | Hfresh].
      * left. exists n. split; [assumption |]. split; congruence.
      * right. lia.
    + right. destruct (handle_assigned c st) as [[_ Hn] | [_ Hn]];
        rewrite Hn in Hnew; lia.
Qed.

(** [id] and [createdAt] are fixed for the life of a note: whatever calls
    are served from a state the process can be in, a note found in the store
    afterwards under the id of a note stored before has the [createdAt] that
    note had. *)
Theorem createdAt_never_changes (cs : list Call) (st : Store) (n n' : Note) :
  reachable st -> n ∈ notes st -> n' ∈ notes (run cs st).1 ->
  id n' = id n -> createdAt n' = createdAt n.
Proof.
  intros (_ & Hids & Hs)%reachable_wf Hn Hn' Hid.
  pose proof (run_origin cs st) as H. rewrite Forall_forall in H.
  destruct (H n' Hn') as [(n0 & Hn0 & Hid0 & Hc0) | Hnew].
  - assert (n0 = n) as -> by (apply (unique_by_id (notes st)); congruence).
    congruence.
  - rewrite Forall_forall in Hids. specialize (Hids n Hn). lia.
Qed.

Lemma createdAt_never_changes_sample :
  reachable sample_store /\ sample_note ∈ notes sample_store /\
  updated 9 sample_update sample_note
  ∈ notes (run [UpdateNote 9 sample_update; sample_create] sample_store).1 /\
  id (updated 9 sample_update sample_note) = id sample_note /\
  createdAt (updated 9 sample_update sample_note) = createdAt sample_note.
Proof.
  split; [exists [sample_create]; reflexivity |].
  split; [vm_compute; left |]. split; [vm_compute; left |].
  split; [reflexivity |].
  apply (createdAt_never_changes [UpdateNote 9 sample_update; sample_create]
           sample_store sample_note (updated 9 sample_update sample_note));
    [exists [sample_create]; reflexivity | vm_compute; left
    | vm_compute; left | reflexivity].
Defined.

(** ** How an identifier is read *)

Lemma trim_start_app (ws s : JSString) :
  forallb is_StrWhiteSpaceChar ws = true ->
  trim_start (ws ++ s) = trim_start s.
Proof.
  induction ws as [|c ws IH]; [reflexivity |].
  simpl. intros [-> Hws]%andb_true_iff. by apply IH.
Qed.

Lemma radix_prefix_decimal_app (d rest : JSString) :
  forallb is_decimal_digit d = true ->
  match rest with [] => true | c :: _ => negb (is_decimal_digit c) end = true ->
  radix_prefix 10 (d ++ rest) = (fun c => Z.of_N c - 48) <$> d.
Proof.
  intros Hd Hrest. induction d as [|c d IH]; simpl.
  - destruct rest as [|c rest]; [reflexivity |]. simpl.
    apply negb_true_iff in Hrest.
    unfold digit_value. fold (is_decimal_digit c). rewrite Hrest.
    repeat match goal with
    | |- context [(?a <=? ?b)%N] => destruct (N.leb_spec a b); simpl
    end; try reflexivity;
      match goal with
      | |- (if ?x <? 10 then _ else _) = _ =>
          destruct (Z.ltb_spec x 10); [lia | reflexivity]
      end.
  - simpl in Hd. apply andb_true_iff in Hd as [Hc Hd].
    destruct (digit_value_decimal c Hc) as [-> Hlt].
    destruct (Z.ltb_spec (Z.of_N c - 48) 10); [| lia].
    by rewrite IH.
Qed.

Lemma decimal_digits_head (fuel : nat) :
  forall (z : Z) (acc : JSString),
    1 <= z < 2 ^ Z.of_nat fuel ->
    exists c d, decimal_digits fuel z acc = c :: d /\ (49 <= c <= 57)%N.
Proof.
  induction fuel as [|fuel IH]; intros z acc Hz; [simpl in Hz; lia |].
  cbn [decimal_digits]. destruct (Z.ltb_spec z 10) as [Hlt | Hge].
  - eexists _, _. split; [reflexivity |].
    rewrite Z.mod_small by lia. lia.
  - apply IH. split.
    + apply Z.div_le_lower_bound; lia.
    + apply Z.div_lt_upper_bound; [lia |].
      replace (Z.of_nat (S fuel)) with (Z.succ (Z.of_nat fuel)) in Hz by lia.
      rewrite Z.pow_succ_r in Hz by lia.
      assert (0 < 2 ^ Z.of_nat fuel) by (apply Z.pow_pos_nonneg; lia). lia.
Qed.

Lemma decimal_spec (z : Z) :
  1 <= z ->
  forallb is_decimal_digit (decimal z) = true /\
  decimal_value (decimal z) = z /\
  exists c d, decimal z = c :: d /\ (49 <= c <= 57)%N.
Proof.
  intros Hz. unfold decimal.
  assert (Hb : 1 <= z < 2 ^ Z.of_nat (S (Z.to_nat (Z.log2 z)))).
  { split; [assumption |].
    pose proof (Z.log2_spec z ltac:(lia)) as [_ Hup].
    pose proof (Z.log2_nonneg z).
    replace (Z.of_nat (S (Z.to_nat (Z.log2 z)))) with (Z.succ (Z.log2 z)) by lia.
    assumption. }
  assert (Hb0 : 0 <= z < 2 ^ Z.of_nat (S (Z.to_nat (Z.log2 z)))) by lia.
  destruct (decimal_digits_spec _ z [] Hb0 eq_refl) as [Hall Hval].
  split; [assumption |]. split.
  - rewrite Hval. unfold decimal_value. simpl. lia.
  - by apply decimal_digits_head.
Qed.

Lemma parseInt_decimal_between (z : Z) (ws rest : JSString) :
  1 <= z ->
  forallb is_StrWhiteSpaceChar ws = true ->
  match rest with [] => true | c :: _ => negb (is_decimal_digit c) end = true ->
  parseInt (ws ++ decimal z ++ rest) = Some z.
Proof.
  intros Hz Hws Hrest.
  destruct (decimal_spec z Hz) as (Hall & Hval & c & d & Hd & Hc).
  unfold parseInt. rewrite trim_start_app by assumption.
  rewrite Hd in *. simpl app.
  assert (Hws' : is_StrWhiteSpaceChar c = false).
  { unfold is_StrWhiteSpaceChar.
    repeat match goal with
    | |- context [(?a <=? ?b)%N] => destruct (N.leb_spec a b); try lia
    | |- context [(?a =? ?b)%N] => destruct (N.eqb_spec a b); try lia
    end; reflexivity. }
  simpl trim_start. rewrite Hws'. unfold strip_sign.
  destruct (N.eqb_spec c 45); [lia |]. destruct (N.eqb_spec c 43); [lia |].
  assert (Hpre : strip_prefix (c :: d ++ rest) = (10, c :: d ++ rest)).
  { unfold strip_prefix. destruct (d ++ rest); [reflexivity |].
    destruct (N.eqb_spec c 48); [lia | reflexivity]. }
  rewrite Hpre.
  change (c :: d ++ rest) with ((c :: d) ++ rest).
  rewrite (radix_prefix_decimal_app _ rest Hall Hrest).
  rewrite <- Hval, <- radix_value_decimal. cbn [fmap list_fmap].
  by rewrite Z.mul_1_l.
Qed.

(** The identifier in the URL is read leniently: for a note stored in a
    state the process can be in, the decimal text of its id, with any white
    space before it and with anything after it that does not start with a
    decimal digit (["12abc"], ["12.5"], ["12 "]), still names that note, for
    [getNoteById] and for the search of [updateNote] and [deleteNote]. *)
Theorem identifier_read_leniently (st : Store) (n : Note) (ws rest : JSString) :
  reachable st -> n ∈ notes st ->
  forallb is_StrWhiteSpaceChar ws = true ->
  match rest with [] => true | c :: _ => negb (is_decimal_digit c) end = true ->
  parseInt (ws ++ decimal (id n) ++ rest) = Some (id n) /\
  getNoteById (by_id (ws ++ decimal (id n) ++ rest)) st = (st, ok_note None n) /\
  exists k,
    notes st !! k = Some n /\
    findIndex (id_is (parseInt (ws ++ decimal (id n) ++ rest))) (notes st)
    = Some k.
Proof.
  intros Hr Hn Hws Hrest.
  pose proof (reachable_wf st Hr) as Hwf.
  assert (Hp : parseInt (ws ++ decimal (id n) ++ rest) = Some (id n)).
  { apply parseInt_decimal_between; [| assumption..].
    destruct Hwf as (_ & Hids & _). rewrite Forall_forall in Hids.
    specialize (Hids n Hn). lia. }
  split; [assumption |]. split.
  - by apply getNoteById_stored_wf.
  - destruct (stored_note_found st n _ Hr Hn Hp) as (l1 & l2 & Hl & Hfind).
    exists (length l1). split; [| assumption].
    rewrite Hl. by apply list_lookup_middle.
Qed.

Lemma identifier_read_leniently_sample :
  reachable sample_store /\ sample_note ∈ notes sample_store /\
  forallb is_StrWhiteSpaceChar (js " ") = true /\
  match js "abc" with [] => true | c :: _ => negb (is_decimal_digit c) end
  = true /\
  parseInt (js " " ++ decimal (id sample_note) ++ js "abc")
  = Some (id sample_note) /\
  getNoteById (by_id (js " " ++ decimal (id sample_note) ++ js "abc"))
    sample_store
  = (sample_store, ok_note None sample_note) /\
  exists k,
    notes sample_store !! k = Some sample_note /\
    findIndex (id_is (parseInt (js " " ++ decimal (id sample_note) ++ js "abc")))
      (notes sample_store)
    = Some k.
Proof.
  split; [exists [sample_create]; reflexivity |].
  split; [vm_compute; left |]. split; [reflexivity |]. split; [reflexivity |].
  apply (identifier_read_leniently sample_store sample_note (js " ") (js "abc"));
    [exists [sample_create]; reflexivity | vm_compute; left
    | reflexivity | reflexivity].
Defined.

(** ** A whole life cycle *)

Lemma findIndex_last (l : list Note) (x : Note) (z : Z) :
  Forall (fun n => id n < z) l -> id x = z ->
  findIndex (id_is (Some z)) (l ++ [x]) = Some (length l).
Proof.
  intros Hl Hx. apply findIndex_Some. exists l, x, []. repeat split.
  - simpl. by apply Z.eqb_eq.
  - eapply Forall_impl; [exact Hl |]. simpl. intros n Hn. apply Z.eqb_neq. lia.
Qed.

(** The life cycle of one note, from any state the process can be in and
    for any truthy [title] and [content]: [createNote] answers 201 with the
    new note; [getAllNotes] lists it last; [getNoteById] with the decimal
    text of its id returns it; [updateNote] returns it with the fields of
    the body that are not [undefined]; [deleteNote] returns it as the update
    left it; [getNoteById] then answers "Note not found"; and the array is
    back to what it was before the cycle, only the counter has moved on by
    one. *)
Theorem note_life_cycle (st : Store) (now1 now2 now3 : Timestamp)
    (t c t' c' : JSValue) :
  reachable st -> ToBoolean t = true -> ToBoolean c = true ->
  exists n n' upd,
    n = mkNote (nextId st) t c now1 now2 /\
    upd = {| params_id := decimal (nextId st);
             body_title := t'; body_content := c' |} /\
    n' = updated now3 upd n /\
    run [CreateNote now1 now2 (body t c);
         GetAllNotes (by_id []);
         GetNoteById (by_id (decimal (nextId st)));
         UpdateNote now3 upd;
         DeleteNote (by_id (decimal (nextId st)));
         GetNoteById (by_id (decimal (nextId st)));
         GetAllNotes (by_id [])] st
    = ({| notes := notes st; nextId := nextId st + 1 |},
       [ {| status := 201; success := true;
            message := Some "Note created successfully"%string;
            count := None; data := Some (OneNote n) |};
         {| status := 200; success := true; message := None;
            count := Some (Z.of_nat (length (notes st)) + 1);
            data := Some (AllNotes (notes st ++ [n])) |};
         ok_note None n;
         ok_note (Some "Note updated successfully"%string) n';
         ok_note (Some "Note deleted successfully"%string) n';
         not_found;
         {| status := 200; success := true; message := None;
            count := Some (Z.of_nat (length (notes st)));
            data := Some (AllNotes (notes st)) |} ]).
Proof.
  intros (Hnext & Hids & _)%reachable_wf Ht Hc.
  eexists _, _, _. split; [reflexivity |]. split; [reflexivity |].
  split; [reflexivity |].
  set (n := mkNote (nextId st) t c now1 now2).
  set (upd := {| params_id := decimal (nextId st);
                 body_title := t'; body_content := c' |}).
  assert (Hp : parseInt (decimal (nextId st)) = Some (nextId st))
    by (apply parseInt_decimal; lia).
  assert (Hlt : Forall (fun m => id m < nextId st) (notes st))
    by (eapply Forall_impl; [exact Hids |]; simpl; intros m Hm; lia).
  assert (Hlast : forall x, id x = nextId st ->
            findIndex (id_is (Some (nextId st))) (notes st ++ [x])
            = Some (length (notes st)))
    by (intros x Hx; by apply findIndex_last).
  assert (H1 : createNote now1 now2 (body t c) st
               = ({| notes := notes st ++ [n]; nextId := nextId st + 1 |},
                  {| status := 201; success := true;
                     message := Some "Note created successfully"%string;
                     count := None; data := Some (OneNote n) |}))
    by (by apply createNote_accepts).
  assert (H2 : getAllNotes (by_id [])
                 {| notes := notes st ++ [n]; nextId := nextId st + 1 |}
               = ({| notes := notes st ++ [n]; nextId := nextId st + 1 |},
                  {| status := 200; success := true; message := None;
                     count := Some (Z.of_nat (length (notes st)) + 1);
                     data := Some (AllNotes (notes st ++ [n])) |})).
  { unfold getAllNotes. cbn [notes]. rewrite length_app. cbn [length].
    by replace (Z.of_nat (length (notes st) + 1))
      with (Z.of_nat (length (notes st)) + 1) by lia. }
  assert (H3 : getNoteById (by_id (decimal (nextId st)))
                 {| notes := notes st ++ [n]; nextId := nextId st + 1 |}
               = ({| notes := notes st ++ [n]; nextId := nextId st + 1 |},
                  ok_note None n)).
  { apply (getNoteById_found _ _ (length (notes st))).
    - cbn [params_id by_id notes]. rewrite Hp. by apply Hlast.
    - cbn [notes]. by apply list_lookup_middle. }
  assert (H4 : updateNote now3 upd
                 {| notes := notes st ++ [n]; nextId := nextId st + 1 |}
               = ({| notes := notes st ++ [updated now3 upd n];
                     nextId := nextId st + 1 |},
                  ok_note (Some "Note updated successfully"%string)
                    (updated now3 upd n))).
  { rewrite (updateNote_found now3 upd _ (length (notes st)) n).
    - cbn [notes nextId].
      rewrite <- (Nat.add_0_r (length (notes st))) at 1.
      by rewrite insert_app_r.
    - subst upd. cbn [params_id notes]. rewrite Hp. by apply Hlast.
    - cbn [notes]. by apply list_lookup_middle. }
  assert (H5 : deleteNote (by_id (decimal (nextId st)))
                 {| notes := notes st ++ [updated now3 upd n];
                    nextId := nextId st + 1 |}
               = ({| notes := notes st; nextId := nextId st + 1 |},
                  ok_note (Some "Note deleted successfully"%string)
                    (updated now3 upd n))).
  { rewrite (deleteNote_found _ _ (notes st) [] (updated now3 upd n)).
    - cbn [nextId]. by rewrite app_nil_r.
    - reflexivity.
    - cbn [params_id by_id notes]. rewrite Hp. by apply Hlast. }
  assert (H6 : getNoteById (by_id (decimal (nextId st)))
                 {| notes := notes st; nextId := nextId st + 1 |}
               = ({| notes := notes st; nextId := nextId st + 1 |}, not_found)).
  { apply (not_found_without_id 0 (by_id (decimal (nextId st))) _
             (nextId st) Hp). cbn [notes].
    eapply Forall_impl; [exact Hlt |]. simpl. intros m Hm. lia. }
  rewrite !run_cons. cbn [handle].
  rewrite H1. cbn [fst snd]. rewrite H2. cbn [fst snd].
  rewrite H3. cbn [fst snd]. rewrite H4. cbn [fst snd].
  rewrite H5. cbn [fst snd]. rewrite H6. reflexivity.
Qed.

Lemma note_life_cycle_sample :
  reachable sample_store /\ ToBoolean (Str "CRUD Test") = true /\
  ToBoolean (Str "Testing full cycle") = true /\
  exists n n' upd,
    n = mkNote (nextId sample_store) (Str "CRUD Test")
          (Str "Testing full cycle") 7 7 /\
    upd = {| params_id := decimal (nextId sample_store);
             body_title := Str "Updated CRUD Test";
             body_content := Str "Updated content" |} /\
    n' = updated 8 upd n /\
    run [CreateNote 7 7 (body (Str "CRUD Test") (Str "Testing full cycle"));
         GetAllNotes (by_id []);
         GetNoteById (by_id (decimal (nextId sample_store)));
         UpdateNote 8 upd;
         DeleteNote (by_id (decimal (nextId sample_store)));
         GetNoteById (by_id (decimal (nextId sample_store)));
         GetAllNotes (by_id [])] sample_store
    = ({| notes := notes sample_store; nextId := nextId sample_store + 1 |},
       [ {| status := 201; success := true;
            message := Some "Note created successfully"%string;
            count := None; data := Some (OneNote n) |};
         {| status := 200; success := true; message := None;
            count := Some (Z.of_nat (length (notes sample_store)) + 1);
            data := Some (AllNotes (notes sample_store ++ [n])) |};
         ok_note None n;
         ok_note (Some "Note updated successfully"%string) n';
         ok_note (Some "Note deleted successfully"%string) n';
         not_found;
         {| status := 200; success := true; message := None;
            count := Some (Z.of_nat (length (notes sample_store)));
            data := Some (AllNotes (notes sample_store)) |} ]).
Proof.
  split; [exists [sample_create]; reflexivity |]. split; [reflexivity |].
  split; [reflexivity |].
  apply (note_life_cycle sample_store 7 7 8 (Str "CRUD Test")
           (Str "Testing full cycle") (Str "Updated CRUD Test")
           (Str "Updated content"));
    [exists [sample_create]; reflexivity | reflexivity | reflexivity].
Defined.

(** ** The listing as a whole *)

Lemma filter_Forall_id (P : Z -> Prop) `{!forall x, Decision (P x)}
    (l : list Z) :
  Forall P l -> filter P l = l.
Proof.
  induction 1 as [|x l Hx Hl IH]; [reflexivity |].
  by rewrite filter_cons_True, IH.
Qed.

Lemma filter_out_sorted (l : list Z) (k : nat) (z : Z) :
  StronglySorted Z.lt l -> l !! k = Some z ->
  filter (fun i => i <> z) l = delete k l.
Proof.
  intros Hs (l1 & l2 & -> & ->)%list_elem_of_split_length.
  rewrite delete_middle, filter_app, filter_cons_False by (intros H; by apply H).
  apply StronglySorted_app in Hs as (Hlt & _ & Htail).
  apply StronglySorted_cons in Htail as [Hgt _].
  rewrite !filter_Forall_id; [reflexivity | |].
  - eapply Forall_impl; [exact Hgt |]. simpl. intros i Hi. lia.
  - apply Forall_forall. intros i Hi.
    enough (i < z) by lia. apply Hlt; [assumption | left].
Qed.

Lemma handle_listing (c : Call) (st : Store) :
  (id <$> notes (handle c st).1 = id <$> notes st /\
   assigned_id (handle c st).2 = None /\ deleted_id (handle c st).2 = None) \/
  (id <$> notes (handle c st).1 = (id <$> notes st) ++ [nextId st] /\
   assigned_id (handle c st).2 = Some (nextId st) /\
   deleted_id (handle c st).2 = None) \/
  (exists k z,
     (id <$> notes st) !! k = Some z /\
     id <$> notes (handle c st).1 = delete k (id <$> notes st) /\
     assigned_id (handle c st).2 = None /\
     deleted_id (handle c st).2 = Some z).
Proof.
  destruct c as [t1 t2 req|req|req|t req|req]; cbn [handle].
  - unfold createNote. destruct (negb _ || negb _); cbn [fst snd notes];
      [by left |].
    right; left. by rewrite fmap_app.
  - by left.
  - unfold getNoteById. destruct (find _ _); by left.
  - left. destruct (updateNote_notes t req st) as (l & -> & _ & -> & _ & _).
    split; [reflexivity |]. unfold updateNote.
    by destruct (findIndex _ _).
  - unfold deleteNote.
    destruct (findIndex _ (notes st)) as [k|] eqn:Hfind; [| by left].
    cbn [fst snd notes].
    right; right. destruct (findIndex_lookup _ _ _ Hfind) as (x & Hx & _).
    exists k, (id x). split; [by rewrite list_lookup_fmap, Hx |].
    split; [by rewrite list_fmap_delete |]. split; [reflexivity |].
    unfold deleted_id, is_deleted. cbn [status message data]. by rewrite Hx.
Qed.

Lemma run_listing (cs : list Call) :
  forall st, wf st ->
    id <$> notes (run cs st).1
    = filter (fun i => i ∉ deleted_ids (run cs st).2)
             ((id <$> notes st) ++ assigned_ids (run cs st).2).
Proof.
  induction cs as [|c cs IH]; intros st Hwf.
  - simpl. rewrite app_nil_r. symmetry. apply filter_Forall_id.
    apply Forall_forall. intros i _. apply not_elem_of_nil.
  - rewrite run_cons. cbn [fst snd].
    pose proof (handle_wf c st Hwf) as Hwf1.
    specialize (IH _ Hwf1). rewrite IH.
    destruct (run_assigned cs (handle c st).1) as (_ & Hnew & _).
    unfold deleted_ids, assigned_ids in *. cbn [omap list_omap].
    destruct (handle_listing c st)
      as [(-> & -> & ->) | [(-> & -> & ->) | (k & z & Hk & -> & -> & ->)]].
    + reflexivity.
    + by rewrite <- app_assoc.
    + destruct Hwf as (_ & Hids & Hs).
      assert (Hz : z < nextId (handle c st).1).
      { pose proof Hk as Hk'.
        apply list_lookup_fmap_Some in Hk' as (x & -> & Hx).
        rewrite Forall_forall in Hids.
        specialize (Hids x (list_elem_of_lookup_2 _ _ _ Hx)).
        destruct (handle_assigned c st) as [[_ ->] | [_ ->]]; lia. }
      rewrite <- (filter_out_sorted _ k z Hs Hk).
      rewrite <- (filter_Forall_id (fun i => i <> z)
                    (omap assigned_id (run cs (handle c st).1).2)) at 1
        by (eapply Forall_impl; [exact Hnew |]; simpl; intros i Hi; lia).
      rewrite <- filter_app, list_filter_filter.
      apply list_filter_iff. intros i. rewrite not_elem_of_cons. tauto.
Qed.

(** After any sequence of calls from the start of the process, the ids of
    the notes in the store, in array order (the order in which [getAllNotes]
    lists them), are exactly the ids handed out by [createNote], in the order
    of creation, without those a [deleteNote] has removed. *)
Theorem listing_is_created_without_deleted (cs : list Call) :
  id <$> notes (run cs initial).1
  = filter (fun i => i ∉ deleted_ids (run cs initial).2)
           (assigned_ids (run cs initial).2).
Proof. apply (run_listing cs initial wf_initial). Qed.
